(** * Rabbit Hole: the sentence ledger and the embedding pipeline

  A shallow embedding of the two Express servers of the repository:

  - [src/server.js]: the sentence ledger.  [POST /webhook/update]
    authenticates, validates the candidate (non-empty, one more word than
    the stored sentence, no terminal punctuation) and overwrites the
    sentence file.
  - the second [server.js], the one that loads [ml-pca] and
    [@xenova/transformers]: the pipeline server.  Its [POST /webhook/update]
    authenticates, rejects only the empty candidate, overwrites the sentence
    file, answers, and then runs a detached task that embeds the sentence,
    appends a row to the vector history, and re-projects the history to 3D
    with PCA.  It also has [POST /reset], [GET /vectors3d] and
    [GET /regenerate].  Its helper [meanPool], which nothing calls, is left
    out.

  JavaScript strings are sequences of UTF-16 code units; numbers are IEEE
  binary64 values ([spec_float]); exceptions are an explicit outcome; the
  three data files, the fault behaviour of the file system, the embedding
  model, the PCA library and the JSON codec are explicit parameters. *)

From Stdlib Require Import String Ascii List NArith ZArith Bool Lia.
From Stdlib Require Import Floats.SpecFloat.
Import ListNotations.

(** ** JavaScript strings *)

Module JsString.

(** A UTF-16 code unit. *)
Definition char16 := N.
Definition jsstring := list char16.

(** ASCII literals, for readable examples. *)
Definition js (s : string) : jsstring :=
  List.map N_of_ascii (list_ascii_of_string s).

(** ToBoolean on a string: the empty string is the only falsy one. *)
Definition truthy (s : jsstring) : bool :=
  match s with [] => false | _ :: _ => true end.

(** [a || b] on strings. *)
Definition or_else (a b : jsstring) : jsstring :=
  if truthy a then a else b.

(** ECMAScript WhiteSpace and LineTerminator code units: what
    [String.prototype.trim] strips and what [\s] matches. *)
Definition isWhiteSpace (c : char16) : bool :=
  ((c =? 9) || (c =? 10) || (c =? 11) || (c =? 12) || (c =? 13)
   || (c =? 32) || (c =? 160) || (c =? 5760)
   || ((8192 <=? c) && (c <=? 8202))
   || (c =? 8232) || (c =? 8233) || (c =? 8239) || (c =? 8287)
   || (c =? 12288) || (c =? 65279))%N.

Fixpoint trimStart (s : jsstring) : jsstring :=
  match s with
  | [] => []
  | c :: rest => if isWhiteSpace c then trimStart rest else s
  end.

Definition trimEnd (s : jsstring) : jsstring :=
  rev (trimStart (rev s)).

(** [s.trim()] *)
Definition trim (s : jsstring) : jsstring := trimEnd (trimStart s).

(** [s.split(/\s+/)]: the scan of [RegExp.prototype[Symbol.split]].  [cur]
    is the piece being collected (reversed); [in_sep] says that the previous
    code unit belonged to the separator run just matched, whose greedy match
    also swallows this one.  On the empty string the result is one empty piece. *)
Fixpoint split_ws_from (in_sep : bool) (cur : jsstring) (s : jsstring)
  : list jsstring :=
  match s with
  | [] => [rev cur]
  | c :: rest =>
      if isWhiteSpace c then
        if in_sep then split_ws_from true [] rest
        else rev cur :: split_ws_from true [] rest
      else split_ws_from false (c :: cur) rest
  end.

Definition split_ws (s : jsstring) : list jsstring :=
  split_ws_from false [] s.

(** The handler's [count = s => s.trim().split(/\s+/).filter(Boolean).length]. *)
Definition count (s : jsstring) : nat :=
  List.length (List.filter truthy (split_ws (trim s))).

Definition isTerminal (c : char16) : bool :=
  ((c =? 46) || (c =? 33) || (c =? 63))%N.   (* '.'  '!'  '?' *)

(** [/[.!?]$/.test(s)]: the matcher is tried at every start index; without
    the [m] flag [$] holds only at the end of the input, so a start index
    matches when exactly one code unit is left and it is in the class. *)
Fixpoint test_terminal (s : jsstring) : bool :=
  match s with
  | [] => false
  | c :: rest =>
      match rest with
      | [] => isTerminal c
      | _ :: _ => test_terminal rest
      end
  end.

(** *** The spec's vocabulary, stated independently of the code *)

(** Number of words: positions that start a maximal run of non-whitespace. *)
Fixpoint words_after (prev_ws : bool) (s : jsstring) : nat :=
  match s with
  | [] => 0
  | c :: rest =>
      if isWhiteSpace c then words_after true rest
      else (if prev_ws then 1 else 0) + words_after false rest
  end.

Definition word_count (s : jsstring) : nat := words_after true s.

(** [s] ends in one of ['.'], ['!'], ['?']. *)
Definition ends_in_terminal (s : jsstring) : Prop :=
  exists body c, s = body ++ [c] /\ isTerminal c = true.

End JsString.

(** ** Exceptions *)

Module Js.

Inductive error :=
| ENOENT                       (* no such file *)
| EIO                          (* any other file-system failure *)
| SyntaxError                  (* JSON.parse on text that is not JSON *)
| TypeError                    (* property access on undefined, call of a non-function *)
| LibraryError (code : N).     (* raised inside the embedding model or the PCA library *)

Inductive outcome (A : Type) :=
| Ok (a : A)
| Throw (e : error).

Arguments Ok {A} a.
Arguments Throw {A} e.

(** A JavaScript number. *)
Definition Number := spec_float.

Definition zero : Number := S754_zero false.

(** ToBoolean on a number: [+0], [-0] and [NaN] are falsy. *)
Definition truthy_num (x : Number) : bool :=
  match x with
  | S754_zero _ | S754_nan => false
  | S754_infinity _ | S754_finite _ _ _ => true
  end.

Definition is_nan_num (x : Number) : bool :=
  match x with S754_nan => true | _ => false end.

(** [a[i] || 0], where [a[i]] is [undefined] past the end of the array. *)
Definition or_zero (x : option Number) : Number :=
  match x with
  | Some v => if truthy_num v then v else zero
  | None => zero
  end.

(** [n || 0] on a step number. *)
Definition or_zero_step (n : option Z) : Z :=
  match n with
  | Some v => if (v =? 0)%Z then 0%Z else v
  | None => 0%Z
  end.

End Js.

(** ** Data model *)

Module Data.
Import JsString Js.

(** A row of [data/vectors.json]: [{ step, t, vec }].  Steps are counted in
    [Z]: an array has fewer than [2^32] elements, so every step the server
    assigns is an integer that a binary64 number holds exactly. *)
Record VectorRecord := mkVectorRecord {
  step : Z;
  t : jsstring;
  vec : list Number
}.

(** A row of [data/vectors3d.json]: [{ step, t, xyz }]. *)
Record ProjectionRecord := mkProjectionRecord {
  pstep : Z;
  pt : jsstring;
  xyz : list Number
}.

(** What [JSON.parse] hands back, seen at the type the caller uses it at:
    an array of rows, or some other JSON value. *)
Inductive parsed (A : Type) :=
| Rows (rows : list A)
| NotAnArray.

Arguments Rows {A} rows.
Arguments NotAnArray {A}.

(** The three data files. *)
Inductive path := DATA_FILE | VEC_FILE | PROJ_FILE.

Definition path_eqb (p q : path) : bool :=
  match p, q with
  | DATA_FILE, DATA_FILE | VEC_FILE, VEC_FILE | PROJ_FILE, PROJ_FILE => true
  | _, _ => false
  end.

(** The decoded text of each file, [None] when the file does not exist. *)
Definition files := path -> option jsstring.

Definition set_file (fs : files) (p : path) (c : option jsstring) : files :=
  fun q => if path_eqb q p then c else fs q.

Definition no_files : files := fun _ => None.

(** The embedding model once loaded: [embed(text, opts)] followed by
    [Array.from(feats.data)]. *)
Definition Embedder := jsstring -> outcome (list Number).

(** The object made by [new PCA(mat, { center: true, scale: false })]. *)
Record PCA := mkPCA {
  getEigenvalues : list Number;
  (* [predict(mat, { nComponents: k }).to2DArray()] *)
  predict : list (list Number) -> nat -> outcome (list (list Number))
}.

(** Everything the server gets from outside: configuration, the clock, the
    failures of the file system, and the libraries it calls. *)
Record Env := mkEnv {
  (* process.env.WEBHOOK_SECRET *)
  WEBHOOK_SECRET : option jsstring;
  (* new Date().toISOString() *)
  now : jsstring;
  (* readFileSync on an existing file fails *)
  read_fault : path -> bool;
  (* writeFileSync of [data] over [old] fails, leaving the file as returned *)
  write_fault : path -> option jsstring -> jsstring -> option (option jsstring);
  (* unlinkSync on an existing file fails *)
  unlink_fault : path -> bool;
  (* pipeline('feature-extraction', 'Xenova/all-MiniLM-L6-v2') *)
  pipeline : outcome Embedder;
  (* new PCA(mat, options) *)
  PCA_new : list (list Number) -> outcome PCA;
  JSON_parse_vectors : jsstring -> outcome (parsed VectorRecord);
  JSON_parse_points : jsstring -> outcome (parsed ProjectionRecord);
  JSON_stringify_vectors : list VectorRecord -> jsstring;
  JSON_stringify_points : list ProjectionRecord -> jsstring
}.

(** The mutable state: the files, the module variable [embedderPromise], and
    what was printed with [console.error]. *)
Record World := mkWorld {
  fs : files;
  embedderPromise : option (outcome Embedder);
  console : list error
}.

Definition with_fs (w : World) (f : files) : World :=
  mkWorld f (embedderPromise w) (console w).

(** A request: the [X-Secret] header and the body as the body parsers leave
    it.  A JSON body is seen through its [sentence] field, already printed by
    [toString]; a missing or falsy field is [None]. *)
Inductive Body :=
| TextBody (text : jsstring)
| JsonBody (sentence : option jsstring)
| NoBody.

Record Request := mkRequest {
  x_secret : option jsstring;
  body : Body
}.

Inductive Response :=
| Status401 (err : jsstring)
| Status400 (err : jsstring)
| Status500 (e : error)
| SendText (text : jsstring)
| SendPoints (pts : parsed ProjectionRecord)
| JsonOkMessage (message : jsstring).

(** The spec's names for the three validation failures. *)
Inductive RejectionReason := EmptyInput | WordCountMismatch | TrailingPunctuation.

End Data.

(** ** State and exceptions threaded through the handlers *)

Module Effects.
Import JsString Js Data.

Definition M (A : Type) : Type := World -> outcome A * World.

Definition ret {A} (a : A) : M A := fun w => (Ok a, w).

Definition throw {A} (e : error) : M A := fun w => (Throw e, w).

(** A library call: its outcome, no change of state. *)
Definition call {A} (o : outcome A) : M A := fun w => (o, w).

Definition bind {A B} (m : M A) (k : A -> M B) : M B :=
  fun w =>
    match m w with
    | (Ok a, w') => k a w'
    | (Throw e, w') => (Throw e, w')
    end.

(** [try { m } catch (e) { h(e) }] *)
Definition try_catch {A} (m : M A) (h : error -> M A) : M A :=
  fun w =>
    match m w with
    | (Ok a, w') => (Ok a, w')
    | (Throw e, w') => h e w'
    end.

(** Express around a route handler: an exception that escapes the handler
    is answered by the default error handler with status 500. *)
Definition express (h : M Response) : World -> Response * World :=
  fun w =>
    match h w with
    | (Ok r, w') => (r, w')
    | (Throw e, w') => (Status500 e, w')
    end.

End Effects.

Declare Scope js_scope.
Delimit Scope js_scope with js.
Notation "x <- c ;; k" := (Effects.bind c (fun x => k))
  (at level 61, c at next level, right associativity) : js_scope.
Notation "c ;; k" := (Effects.bind c (fun _ => k))
  (at level 61, right associativity) : js_scope.

(** ** What both servers share: strings, files, the secret *)

Module Common.
Import JsString Js Data Effects.
Local Open Scope js_scope.

(** [a === b] on strings. *)
Fixpoint strict_eq (a b : jsstring) : bool :=
  match a, b with
  | [], [] => true
  | x :: a', y :: b' => (x =? y)%N && strict_eq a' b'
  | _, _ => false
  end.

(** [x || ''] where [x] may be [undefined]. *)
Definition or_empty (x : option jsstring) : jsstring :=
  match x with
  | Some s => or_else s []
  | None => []
  end.

(** What a string becomes when it is written as UTF-8 and read back: a
    surrogate code unit that is not part of a pair comes back as U+FFFD. *)
Definition isHigh (c : char16) : bool := ((55296 <=? c) && (c <=? 56319))%N.
Definition isLow (c : char16) : bool := ((56320 <=? c) && (c <=? 57343))%N.

Fixpoint utf8_text (after_high : bool) (s : jsstring) : jsstring :=
  match s with
  | [] => []
  | c :: rest =>
      if isHigh c then
        match rest with
        | d :: _ => if isLow d then c :: utf8_text true rest
                    else 65533%N :: utf8_text false rest
        | [] => [65533%N]
        end
      else if isLow c then
        (if after_high then c else 65533%N) :: utf8_text false rest
      else c :: utf8_text false rest
  end.

Section WithEnv.
Variable env : Env.

(** [fs.readFileSync(p, 'utf8')] *)
Definition readFileSync (p : path) : M jsstring :=
  fun w =>
    match fs w p with
    | None => (Throw ENOENT, w)
    | Some text => if read_fault env p then (Throw EIO, w) else (Ok text, w)
    end.

(** [fs.writeFileSync(p, data)] *)
Definition writeFileSync (p : path) (data : jsstring) : M unit :=
  fun w =>
    match write_fault env p (fs w p) data with
    | None => (Ok tt, with_fs w (set_file (fs w) p (Some (utf8_text false data))))
    | Some left_behind => (Throw EIO, with_fs w (set_file (fs w) p left_behind))
    end.

(** [fs.existsSync(p)] *)
Definition existsSync (p : path) : M bool :=
  fun w => (Ok (match fs w p with Some _ => true | None => false end), w).

(** [fs.unlinkSync(p)] *)
Definition unlinkSync (p : path) : M unit :=
  fun w =>
    match fs w p with
    | None => (Throw ENOENT, w)
    | Some _ =>
        if unlink_fault env p then (Throw EIO, w)
        else (Ok tt, with_fs w (set_file (fs w) p None))
    end.

(** [const SECRET = process.env.WEBHOOK_SECRET || ''] *)
Definition SECRET : jsstring := or_empty (WEBHOOK_SECRET env).

(** The guard of the protected routes, [!SECRET || token !== SECRET], with
    [token = req.header('X-Secret') || '']. *)
Definition unauthorized (req : Request) : bool :=
  let token := or_empty (x_secret req) in
  negb (truthy SECRET) || negb (strict_eq token SECRET).

(** The candidate as the client sent it: [(body.sentence || '').toString()]
    with [body = typeof req.body === 'string' ? { sentence: req.body }
    : (req.body || {})]. *)
Definition sentence_of (req : Request) : jsstring :=
  or_empty
    match body req with
    | TextBody text => Some text
    | JsonBody sentence => sentence
    | NoBody => None
    end.

(** [const incoming = (body.sentence || '').toString().trim()] *)
Definition incoming_of (req : Request) : jsstring :=
  trim (sentence_of req).

Definition readSentence : M jsstring :=
  try_catch (text <- readFileSync DATA_FILE ;; ret (trim text))
            (fun _ => ret []).

Definition writeSentence (text : jsstring) : M unit :=
  writeFileSync DATA_FILE text.

(** [app.get('/sentence', ...)] *)
Definition get_sentence : M Response :=
  text <- readSentence ;; ret (SendText text).

(** The current sentence: what [readSentence()] returns in this state. *)
Definition current_sentence (w : World) : jsstring :=
  match readSentence w with
  | (Ok text, _) => text
  | (Throw _, _) => []
  end.

End WithEnv.

Definition unauthorized_msg : jsstring := js "unauthorized".
Definition missing_sentence_msg : jsstring := js "missing sentence".
Definition one_word_msg : jsstring := js "must append exactly one word".
Definition punctuation_msg : jsstring := js "do not end the sentence with punctuation".

(** The spec's reason behind each 400 answer. *)
Definition rejection (r : Response) : option RejectionReason :=
  match r with
  | Status400 err =>
      if strict_eq err missing_sentence_msg then Some EmptyInput
      else if strict_eq err one_word_msg then Some WordCountMismatch
      else if strict_eq err punctuation_msg then Some TrailingPunctuation
      else None
  | _ => None
  end.

End Common.

(** ** [src/server.js]: the sentence ledger *)

Module Ledger.
Import JsString Js Data Effects Common.
Local Open Scope js_scope.

Section WithEnv.
Variable env : Env.

(** [app.post('/webhook/update', ...)] *)
Definition post_webhook_update (req : Request) : M Response :=
  if unauthorized env req then ret (Status401 unauthorized_msg)
  else
    let incoming := incoming_of req in
    if negb (truthy incoming) then ret (Status400 missing_sentence_msg)
    else
      prev <- readSentence env ;;
      if truthy prev && negb (count incoming =? count prev + 1)%nat
      then ret (Status400 one_word_msg)
      else if test_terminal incoming
      then ret (Status400 punctuation_msg)
      else
        writeSentence env incoming ;;
        ret (SendText incoming).

End WithEnv.
End Ledger.

(** ** The second [server.js]: the pipeline server *)

Module Pipeline.
Import JsString Js Data Effects Common.
Local Open Scope js_scope.

(** [a[i]] for a signed index: [undefined] outside the array. *)
Definition at_index {A} (a : list A) (i : Z) : option A :=
  if (i <? 0)%Z then None else nth_error a (Z.to_nat i).

(** [(list[list.length - 1]?.step || 0) + 1] *)
Definition next_step (lst : list VectorRecord) : Z :=
  (or_zero_step
     (option_map step (at_index lst (Z.of_nat (List.length lst) - 1))) + 1)%Z.

(** [list.push({ step, t: new Date().toISOString(), vec })] *)
Definition push_row (lst : list VectorRecord) (time : jsstring)
  (v : list Number) : list VectorRecord :=
  lst ++ [mkVectorRecord (next_step lst) time v].

(** [[p[0] || 0, p[1] || 0, p[2] || 0]] *)
Definition triple (p : list Number) : list Number :=
  [or_zero (nth_error p 0); or_zero (nth_error p 1); or_zero (nth_error p 2)].

(** The callback of [vectors.map((row, i) => ...)] in [projectTo3D], run from
    index [i] on: [proj[i][0]] throws when [proj[i]] is [undefined]. *)
Fixpoint map_rows (proj : list (list Number)) (i : nat)
  (vectors : list VectorRecord) : outcome (list ProjectionRecord) :=
  match vectors with
  | [] => Ok []
  | row :: rest =>
      match nth_error proj i with
      | None => Throw TypeError
      | Some p =>
          let point := mkProjectionRecord (step row) (t row) (triple p) in
          match map_rows proj (S i) rest with
          | Ok points => Ok (point :: points)
          | Throw e => Throw e
          end
      end
  end.

Section WithEnv.
Variable env : Env.

Definition projectTo3D (vectors : list VectorRecord)
  : outcome (list ProjectionRecord) :=
  match vectors with
  | [] => Ok []
  | _ :: _ =>
      let mat := List.map vec vectors in
      match PCA_new env mat with
      | Throw e => Throw e
      | Ok pca =>
          let k := Nat.min 3 (List.length (getEigenvalues pca)) in
          match predict pca mat k with
          | Throw e => Throw e
          | Ok proj => map_rows proj 0 vectors
          end
      end
  end.

(** [getEmbedder]: the promise is made once and kept, also when it rejects. *)
Definition getEmbedder : M Embedder :=
  fun w =>
    match embedderPromise w with
    | Some p => (p, w)
    | None =>
        let p := pipeline env in
        (p, mkWorld (fs w) (Some p) (console w))
    end.

(** [loadJson(file, fallback)], at the type its caller reads the value at. *)
Definition loadJson {A} (parse : jsstring -> outcome A) (file : path)
  (fallback : A) : M A :=
  try_catch (text <- readFileSync env file ;; call (parse text))
            (fun _ => ret fallback).

(** [saveJson(file, data)] *)
Definition saveJson {A} (stringify : A -> jsstring) (file : path)
  (data : A) : M unit :=
  writeFileSync env file (stringify data).

(** [console.error('Embedding/PCA error:', e.message, e.stack)] *)
Definition console_error (e : error) : M unit :=
  fun w => (Ok tt, mkWorld (fs w) (embedderPromise w) (console w ++ [e])).

(** The body of the [try] block of the detached task. *)
Definition task_body : M unit :=
  sentence <- readSentence env ;;
  embed <- getEmbedder ;;
  v <- call (embed sentence) ;;
  loaded <- loadJson (JSON_parse_vectors env) VEC_FILE (Rows []) ;;
  match loaded with
  | NotAnArray => throw TypeError
  | Rows lst =>
      let lst' := push_row lst (now env) v in
      saveJson (JSON_stringify_vectors env) VEC_FILE lst' ;;
      proj <- call (projectTo3D lst') ;;
      saveJson (JSON_stringify_points env) PROJ_FILE proj
  end.

(** [(async () => { try { ... } catch (e) { console.error(...) } })()] *)
Definition background_task : M unit :=
  try_catch task_body console_error.

(** [app.post('/webhook/update', ...)]: the answer is sent before the
    detached task starts; requests are served one at a time, so the task has
    run to its end before the next request. *)
Definition post_webhook_update (req : Request) : M Response :=
  if unauthorized env req then ret (Status401 unauthorized_msg)
  else
    let incoming := incoming_of req in
    if negb (truthy incoming) then ret (Status400 missing_sentence_msg)
    else
      writeSentence env incoming ;;
      let sent := SendText incoming in
      background_task ;;
      ret sent.

(** [app.get('/vectors3d', ...)] *)
Definition get_vectors3d : M Response :=
  pts <- loadJson (JSON_parse_points env) PROJ_FILE (Rows []) ;;
  ret (SendPoints pts).

(** [if (fs.existsSync(p)) fs.unlinkSync(p)] *)
Definition unlink_if_exists (p : path) : M unit :=
  there <- existsSync p ;;
  if there then unlinkSync env p else ret tt.

(** [app.post('/reset', ...)] *)
Definition post_reset (req : Request) : M Response :=
  if unauthorized env req then ret (Status401 unauthorized_msg)
  else
    try_catch
      (unlink_if_exists DATA_FILE ;;
       unlink_if_exists VEC_FILE ;;
       unlink_if_exists PROJ_FILE ;;
       ret (JsonOkMessage (js "All data cleared")))
      (fun e => ret (Status500 e)).

(** What a read of the vector history and of the projection output gives in
    a state. *)
Definition vector_history (w : World) : parsed VectorRecord :=
  match loadJson (JSON_parse_vectors env) VEC_FILE (Rows []) w with
  | (Ok v, _) => v
  | (Throw _, _) => NotAnArray
  end.

Definition projection_output (w : World) : parsed ProjectionRecord :=
  match loadJson (JSON_parse_points env) PROJ_FILE (Rows []) w with
  | (Ok v, _) => v
  | (Throw _, _) => NotAnArray
  end.

(** What [await getEmbedder()] gives in a state. *)
Definition embedder_of (w : World) : outcome Embedder :=
  match embedderPromise w with
  | Some p => p
  | None => pipeline env
  end.

End WithEnv.

(** *** What the server expects of PCA *)

(** A projected row sits at the origin: every coordinate is a zero, or the
    [NaN] that degenerate arithmetic leaves in its place.  Centred PCA maps
    the mean of the data there, and a single record is its own mean. *)
Definition at_origin (row : list Number) : Prop :=
  Forall (fun x => truthy_num x = false) row.

(** *** Histories of the vector file *)

(** The histories that appends, run one after the other from the empty
    history, can produce. *)
Inductive serialized : list VectorRecord -> Prop :=
| serialized_empty : serialized []
| serialized_push lst time v :
    serialized lst -> serialized (push_row lst time v).

End Pipeline.

(** ** A concrete deployment, for running the model *)

Module Demo.
Import JsString Js Data Effects Common.

Definition half : Number := S754_finite false 1 (-1).
Definition minus_quarter : Number := S754_finite true 1 (-2).

(** A stand-in for the embedding model: a fixed two-dimensional vector. *)
Definition embedder : Embedder := fun _ => Ok [half; minus_quarter].

(** A stand-in for PCA: two eigenvalues, and a projection that keeps the
    first [k] coordinates of every row. *)
Definition pca : PCA :=
  mkPCA [half; half] (fun mat k => Ok (List.map (firstn k) mat)).

(** Secret set, no failing file operation, both libraries working; the JSON
    codec is cut down to the empty array. *)
Definition env : Env :=
  mkEnv (Some (js "hunter2")) (js "2025-01-01T00:00:00.000Z")
    (fun _ => false) (fun _ _ _ => None) (fun _ => false)
    (Ok embedder) (fun _ => Ok pca)
    (fun _ => Ok (Rows [])) (fun _ => Ok (Rows []))
    (fun _ => js "[]") (fun _ => js "[]").

(** The same deployment with an embedding model that fails to load. *)
Definition env_no_model : Env :=
  mkEnv (Some (js "hunter2")) (js "2025-01-01T00:00:00.000Z")
    (fun _ => false) (fun _ _ _ => None) (fun _ => false)
    (Throw (LibraryError 1)) (fun _ => Ok pca)
    (fun _ => Ok (Rows [])) (fun _ => Ok (Rows []))
    (fun _ => js "[]") (fun _ => js "[]").

(** The same deployment with no secret configured. *)
Definition env_no_secret : Env :=
  mkEnv None (js "2025-01-01T00:00:00.000Z")
    (fun _ => false) (fun _ _ _ => None) (fun _ => false)
    (Ok embedder) (fun _ => Ok pca)
    (fun _ => Ok (Rows [])) (fun _ => Ok (Rows []))
    (fun _ => js "[]") (fun _ => js "[]").

Definition world_with (sentence : option jsstring) : World :=
  mkWorld (set_file no_files DATA_FILE sentence) None [].

Definition propose (text : string) : Request :=
  mkRequest (Some (js "hunter2")) (TextBody (js text)).

Definition reset : Request := mkRequest (Some (js "hunter2")) NoBody.

End Demo.

(** ** The pipeline server: [GET /regenerate] *)

Module Regenerate.
Import JsString Js Data Effects Common.
Local Open Scope js_scope.

(** A parsed value that is not an array, at the detail this route looks at
    it: [null], whose [.length] throws, or a value whose [.length] is truthy
    (a non-empty string, an object with such a key) or falsy (a number, a
    boolean, an object without the key, the empty string). *)
Inductive other_value :=
| Null
| Other (length_truthy : bool).

(** What [loadJson(VEC_FILE, [])] hands to this route. *)
Inductive loaded :=
| Array (rows : list VectorRecord)
| NonArray (v : other_value).

Inductive Answer :=
| NoVectors (err : jsstring)        (* res.json({ error }) *)
| Regenerated (points : nat)        (* res.json({ ok: true, points }) *)
| Failed (e : error).               (* res.status(500).json({ error, stack }) *)

Definition no_vectors_msg : jsstring := js "no vectors to project".

Section WithEnv.
Variable env : Env.
(** Which non-array value a text parses to. *)
Variable shape : jsstring -> other_value.

(** [JSON.parse] as this route sees it: [JSON_parse_vectors], with the
    non-array values told apart. *)
Definition JSON_parse (text : jsstring) : outcome loaded :=
  match JSON_parse_vectors env text with
  | Ok (Rows rows) => Ok (Array rows)
  | Ok NotAnArray => Ok (NonArray (shape text))
  | Throw e => Throw e
  end.

(** [app.get('/regenerate', ...)].  On a non-array with a truthy length the
    guard lets it through and [vectors.map] in [projectTo3D] is not a
    function. *)
Definition get_regenerate : M Answer :=
  try_catch
    (lst <- Pipeline.loadJson env JSON_parse VEC_FILE (Array []) ;;
     match lst with
     | NonArray Null => throw TypeError
     | NonArray (Other false) => ret (NoVectors no_vectors_msg)
     | NonArray (Other true) => throw TypeError
     | Array rows =>
         if (length rows =? 0)%nat then ret (NoVectors no_vectors_msg)
         else
           proj <- call (Pipeline.projectTo3D env rows) ;;
           Pipeline.saveJson env (JSON_stringify_points env) PROJ_FILE proj ;;
           ret (Regenerated (length proj))
     end)
    (fun e => ret (Failed e)).

(** What this route finds in the vector file in a state. *)
Definition history_seen (w : World) : loaded :=
  match Pipeline.loadJson env JSON_parse VEC_FILE (Array []) w with
  | (Ok v, _) => v
  | (Throw _, _) => Array []
  end.

End WithEnv.
End Regenerate.

(** ** Words for the further properties *)

Module Vocabulary.
Import JsString Js Data Effects Common.

(** No surrogate code unit: such a text is written and read back as it is. *)
Definition no_surrogates (s : jsstring) : Prop :=
  Forall (fun c => isHigh c = false /\ isLow c = false) s.

(** No whitespace code unit. *)
Definition no_whitespace (s : jsstring) : Prop :=
  Forall (fun c => isWhiteSpace c = false) s.

(** Two texts of the same length that agree, position by position, on what
    is whitespace and what is a terminal mark. *)
Definition same_class (s t : jsstring) : Prop :=
  Forall2 (fun x y => isWhiteSpace x = isWhiteSpace y /\
                      isTerminal x = isTerminal y) s t.

(** [unlinkSync(p)] would go through, or there is nothing to unlink. *)
Definition removable (env : Env) (w : World) (p : path) : bool :=
  match fs w p with
  | Some _ => negb (unlink_fault env p)
  | None => true
  end.

(** What the detached task prints: the error of its [try] block, if any. *)
Definition logged (o : outcome unit) : list error :=
  match o with
  | Ok _ => []
  | Throw e => [e]
  end.

End Vocabulary.

(** ** More deployments, for running the model *)

Module Scenario.
Import JsString Js Data Effects Common.

(** The row the first update appends in the deployment below. *)
Definition first_row : VectorRecord :=
  mkVectorRecord 1 (js "2025-01-01T00:00:00.000Z") [Demo.half; Demo.minus_quarter].

Definition first_point : ProjectionRecord :=
  mkProjectionRecord 1 (js "2025-01-01T00:00:00.000Z")
    [Demo.half; Demo.minus_quarter; zero].

(** A deployment whose JSON codec knows two texts: that of the one-row
    history and that of its projection. *)
Definition env : Env :=
  mkEnv (Some (js "hunter2")) (js "2025-01-01T00:00:00.000Z")
    (fun _ => false) (fun _ _ _ => None) (fun _ => false)
    (Ok Demo.embedder) (fun _ => Ok Demo.pca)
    (fun text => if strict_eq text (js "[row1]") then Ok (Rows [first_row])
                 else Throw SyntaxError)
    (fun text => if strict_eq text (js "[point1]") then Ok (Rows [first_point])
                 else Throw SyntaxError)
    (fun _ => js "[row1]") (fun _ => js "[point1]").

(** A deployment in which the vector file cannot be unlinked. *)
Definition env_locked_vectors : Env :=
  mkEnv (Some (js "hunter2")) (js "2025-01-01T00:00:00.000Z")
    (fun _ => false) (fun _ _ _ => None)
    (fun p => match p with VEC_FILE => true | _ => false end)
    (Ok Demo.embedder) (fun _ => Ok Demo.pca)
    (fun _ => Ok (Rows [])) (fun _ => Ok (Rows []))
    (fun _ => js "[]") (fun _ => js "[]").

(** A deployment whose PCA fails. *)
Definition env_no_pca : Env :=
  mkEnv (Some (js "hunter2")) (js "2025-01-01T00:00:00.000Z")
    (fun _ => false) (fun _ _ _ => None) (fun _ => false)
    (Ok Demo.embedder) (fun _ => Throw (LibraryError 2))
    (fun _ => Ok (Rows [first_row])) (fun _ => Ok (Rows []))
    (fun _ => js "[row1]") (fun _ => js "[]").

(** All three files present. *)
Definition populated : World :=
  mkWorld (fun p => match p with
                    | DATA_FILE => Some (js "the rabbit hole")
                    | VEC_FILE => Some (js "[row1]")
                    | PROJ_FILE => Some (js "[point1]")
                    end) None [].

Definition shape : jsstring -> Regenerate.other_value :=
  fun _ => Regenerate.Other false.

End Scenario.

(** * Facts *)

(** ** Strings: the handler's counting and matching against the spec's words *)

Module StringFacts.
Import JsString Common.

Lemma strict_eq_iff (a b : jsstring) : strict_eq a b = true <-> a = b.
Proof.
  revert b; induction a as [|x a IH]; intros [|y b]; simpl;
    try (split; [discriminate | discriminate]); try tauto.
  rewrite andb_true_iff, N.eqb_eq, IH. split.
  - intros [-> ->]; reflexivity.
  - intros H; injection H; auto.
Qed.

Lemma truthy_iff (s : jsstring) : truthy s = true <-> s <> [].
Proof. destruct s; simpl; split; congruence. Qed.

Lemma truthy_false_iff (s : jsstring) : truthy s = false <-> s = [].
Proof. destruct s; simpl; split; congruence. Qed.

Lemma trimStart_split (s : jsstring) :
  exists pre, s = pre ++ trimStart s /\ forallb isWhiteSpace pre = true.
Proof.
  induction s as [|c s [pre [E W]]]; simpl.
  - exists []; auto.
  - destruct (isWhiteSpace c) eqn:Hc.
    + exists (c :: pre); simpl; rewrite Hc, W; split; [congruence | reflexivity].
    + exists []; auto.
Qed.

Lemma trimEnd_split (s : jsstring) :
  exists tail, s = trimEnd s ++ tail /\ forallb isWhiteSpace tail = true.
Proof.
  unfold trimEnd. destruct (trimStart_split (rev s)) as [pre [E W]].
  exists (rev pre); split.
  - rewrite <- rev_app_distr, <- E, rev_involutive; reflexivity.
  - rewrite forallb_forall in *. intros x Hx; apply W, in_rev, Hx.
Qed.

Lemma words_after_trimStart (s : jsstring) :
  words_after true (trimStart s) = words_after true s.
Proof.
  induction s as [|c s IH]; simpl; auto.
  destruct (isWhiteSpace c) eqn:Hc; auto. simpl; rewrite Hc; reflexivity.
Qed.

Lemma words_after_app_ws (tail : jsstring) :
  forallb isWhiteSpace tail = true ->
  forall b s, words_after b (s ++ tail) = words_after b s.
Proof.
  intros W b s; revert b; induction s as [|c s IH]; intros b; simpl.
  - clear - W. revert b; induction tail as [|c tail IH]; intros b; simpl; auto.
    simpl in W; apply andb_true_iff in W as [Hc W]; rewrite Hc; auto.
  - destruct (isWhiteSpace c); rewrite IH; reflexivity.
Qed.

Lemma word_count_trim (s : jsstring) : word_count (trim s) = word_count s.
Proof.
  unfold word_count, trim.
  destruct (trimEnd_split (trimStart s)) as [tail [E W]].
  rewrite <- (words_after_trimStart s).
  rewrite <- (words_after_app_ws tail W true (trimEnd (trimStart s))).
  rewrite <- E; reflexivity.
Qed.

Lemma split_pieces (s : jsstring) :
  forall in_sep cur,
    (in_sep = true -> cur = []) ->
    length (filter truthy (split_ws_from in_sep cur s)) =
    match cur with
    | [] => words_after true s
    | _ :: _ => S (words_after false s)
    end.
Proof.
  induction s as [|c s IH]; intros in_sep cur Hinv; simpl.
  - destruct cur as [|x cur]; simpl; auto.
    destruct (rev cur ++ [x]) eqn:E; simpl; auto.
    destruct (rev cur); discriminate.
  - destruct (isWhiteSpace c) eqn:Hc.
    + destruct in_sep.
      * rewrite (Hinv eq_refl). apply (IH true []); auto.
      * simpl. destruct cur as [|x cur]; simpl.
        -- apply (IH true []); auto.
        -- destruct (rev cur ++ [x]) eqn:E; simpl.
           ++ destruct (rev cur); discriminate.
           ++ f_equal. apply (IH true []); auto.
    + rewrite (IH false (c :: cur)) by discriminate.
      destruct cur; reflexivity.
Qed.

(** The handler's [count] is the spec's word count. *)
Lemma count_word_count (s : jsstring) : count s = word_count s.
Proof.
  unfold count, split_ws. rewrite split_pieces by discriminate.
  apply word_count_trim.
Qed.

(** The regular expression test says that the last code unit is one of the
    three marks. *)
Lemma test_terminal_iff (s : jsstring) :
  test_terminal s = true <-> ends_in_terminal s.
Proof.
  unfold ends_in_terminal. induction s as [|c s IH]; simpl.
  - split; [discriminate|]. intros (b & x & E & _). destruct b; discriminate.
  - destruct s as [|d s].
    + split.
      * intros H; exists [], c; auto.
      * intros (b & x & E & H). destruct b as [|y b]; simpl in E.
        -- injection E as ->; exact H.
        -- injection E as _ E; destruct b; discriminate.
    + rewrite IH. split.
      * intros (b & x & E & H). exists (c :: b), x; simpl; rewrite E; auto.
      * intros (b & x & E & H). destruct b as [|y b]; simpl in E.
        -- discriminate.
        -- injection E as _ E. exists b, x; auto.
Qed.

Lemma test_terminal_false_iff (s : jsstring) :
  test_terminal s = false <-> ~ ends_in_terminal s.
Proof.
  rewrite <- test_terminal_iff. destruct (test_terminal s); split; congruence.
Qed.

End StringFacts.

(** ** Reads never throw *)

Module ReadFacts.
Import JsString Js Data Effects Common.

Lemma readSentence_total (env : Env) (w : World) :
  readSentence env w = (Ok (current_sentence env w), w).
Proof.
  unfold current_sentence, readSentence, try_catch, bind, readFileSync, ret.
  destruct (fs w DATA_FILE); [destruct (read_fault env DATA_FILE)|]; reflexivity.
Qed.

Lemma current_sentence_cases (env : Env) (w : World) :
  current_sentence env w =
  match fs w DATA_FILE with
  | Some text => if read_fault env DATA_FILE then [] else trim text
  | None => []
  end.
Proof.
  unfold current_sentence, readSentence, try_catch, bind, readFileSync, ret.
  destruct (fs w DATA_FILE); [destruct (read_fault env DATA_FILE)|]; reflexivity.
Qed.

Lemma loadJson_cases {A} (env : Env) (parse : jsstring -> outcome A)
  (file : path) (fallback : A) (w : World) :
  Pipeline.loadJson env parse file fallback w =
  (Ok match readFileSync env file w with
      | (Ok text, _) =>
          match parse text with Ok v => v | Throw _ => fallback end
      | (Throw _, _) => fallback
      end, w).
Proof.
  unfold Pipeline.loadJson, try_catch, bind, call, readFileSync, ret.
  destruct (fs w file) as [text|]; [|reflexivity].
  destruct (read_fault env file); [reflexivity|].
  destruct (parse text); reflexivity.
Qed.

End ReadFacts.

(** ** The guard of the protected routes *)

Module AuthFacts.
Import JsString Js Data Effects Common StringFacts.

Lemma or_empty_nil (x : option jsstring) :
  or_empty x = [] <-> x = None \/ x = Some [].
Proof.
  destruct x as [[|c s]|]; simpl; split; intros H; auto; try discriminate.
  - destruct H; discriminate.
Qed.

Lemma authorized_iff (env : Env) (req : Request) :
  unauthorized env req = false <->
  SECRET env <> [] /\ or_empty (x_secret req) = SECRET env.
Proof.
  unfold unauthorized. rewrite orb_false_iff, !negb_false_iff.
  rewrite truthy_iff, strict_eq_iff. reflexivity.
Qed.

End AuthFacts.

(** ** The sentence ledger *)

Module LedgerFacts.
Import JsString Js Data Effects Common StringFacts ReadFacts.

(** The handler of [src/server.js] as a decision table. *)
Lemma ledger_update_cases (env : Env) (w : World) (req : Request) :
  unauthorized env req = false ->
  express (Ledger.post_webhook_update env req) w =
  let incoming := incoming_of req in
  let prev := current_sentence env w in
  if negb (truthy incoming) then (Status400 missing_sentence_msg, w)
  else if truthy prev && negb (count incoming =? count prev + 1)%nat
  then (Status400 one_word_msg, w)
  else if test_terminal incoming then (Status400 punctuation_msg, w)
  else
    match write_fault env DATA_FILE (fs w DATA_FILE) incoming with
    | None =>
        (SendText incoming,
         with_fs w (set_file (fs w) DATA_FILE (Some (utf8_text false incoming))))
    | Some left_behind =>
        (Status500 EIO, with_fs w (set_file (fs w) DATA_FILE left_behind))
    end.
Proof.
  intros Hauth. unfold express, Ledger.post_webhook_update. rewrite Hauth.
  cbv zeta. destruct (negb (truthy (incoming_of req))); [reflexivity|].
  unfold bind at 1. rewrite readSentence_total.
  destruct (truthy (current_sentence env w) && _); [reflexivity|].
  destruct (test_terminal (incoming_of req)); [reflexivity|].
  unfold bind, writeSentence, writeFileSync, ret.
  destruct (write_fault env DATA_FILE (fs w DATA_FILE) (incoming_of req));
    reflexivity.
Qed.

Lemma rejection_missing : rejection (Status400 missing_sentence_msg) = Some EmptyInput.
Proof. reflexivity. Qed.

Lemma rejection_one_word : rejection (Status400 one_word_msg) = Some WordCountMismatch.
Proof. reflexivity. Qed.

Lemma rejection_punctuation :
  rejection (Status400 punctuation_msg) = Some TrailingPunctuation.
Proof. reflexivity. Qed.

End LedgerFacts.

(** ** The pipeline server *)

Module PipelineFacts.
Import JsString Js Data Effects Common StringFacts ReadFacts.

(** Whatever happens inside, the detached task ends normally. *)
Lemma background_task_total (env : Env) (w : World) :
  Pipeline.background_task env w = (Ok tt, snd (Pipeline.background_task env w)).
Proof.
  unfold Pipeline.background_task, try_catch, Pipeline.console_error.
  destruct (Pipeline.task_body env w) as [[[]|e] w']; reflexivity.
Qed.

(** The update handler of the pipeline server as a decision table. *)
Lemma pipeline_update_cases (env : Env) (w : World) (req : Request) :
  unauthorized env req = false ->
  express (Pipeline.post_webhook_update env req) w =
  let incoming := incoming_of req in
  if negb (truthy incoming) then (Status400 missing_sentence_msg, w)
  else
    match write_fault env DATA_FILE (fs w DATA_FILE) incoming with
    | None =>
        (SendText incoming,
         snd (Pipeline.background_task env
                (with_fs w (set_file (fs w) DATA_FILE
                                     (Some (utf8_text false incoming))))))
    | Some left_behind =>
        (Status500 EIO, with_fs w (set_file (fs w) DATA_FILE left_behind))
    end.
Proof.
  intros Hauth. unfold express, Pipeline.post_webhook_update. rewrite Hauth.
  cbv zeta. destruct (negb (truthy (incoming_of req))); [reflexivity|].
  unfold bind at 1. unfold writeSentence, writeFileSync.
  destruct (write_fault env DATA_FILE (fs w DATA_FILE) (incoming_of req));
    [reflexivity|].
  unfold bind. rewrite background_task_total. reflexivity.
Qed.

Lemma unlink_if_exists_cases (env : Env) (p : path) (w : World) :
  Pipeline.unlink_if_exists env p w =
  match fs w p with
  | None => (Ok tt, w)
  | Some _ =>
      if unlink_fault env p then (Throw EIO, w)
      else (Ok tt, with_fs w (set_file (fs w) p None))
  end.
Proof.
  unfold Pipeline.unlink_if_exists, bind, existsSync, unlinkSync, ret.
  destruct (fs w p) eqn:Hp; [rewrite Hp|]; reflexivity.
Qed.

Lemma set_file_same (f : files) (p : path) (c : option jsstring) :
  set_file f p c p = c.
Proof. unfold set_file. destruct p; reflexivity. Qed.

Lemma set_file_other (f : files) (p q : path) (c : option jsstring) :
  q <> p -> set_file f p c q = f q.
Proof. unfold set_file. destruct p, q; simpl; congruence. Qed.

(** A removal that went through leaves the file absent and creates none. *)
Lemma unlink_if_exists_ok (env : Env) (p : path) (w w' : World) :
  Pipeline.unlink_if_exists env p w = (Ok tt, w') ->
  fs w' p = None /\ forall q, fs w q = None -> fs w' q = None.
Proof.
  rewrite unlink_if_exists_cases. destruct (fs w p) eqn:Hp.
  - destruct (unlink_fault env p); [discriminate|].
    intros H; injection H as <-. simpl. split.
    + apply set_file_same.
    + intros q Hq. unfold set_file. destruct (path_eqb q p); auto.
  - intros H; injection H as <-. auto.
Qed.

(** [POST /reset] answers [ok] only when the three files are gone. *)
Lemma reset_ok_clears (env : Env) (req : Request) (w w' : World) (m : jsstring) :
  express (Pipeline.post_reset env req) w = (JsonOkMessage m, w') ->
  forall p, fs w' p = None.
Proof.
  unfold express, Pipeline.post_reset.
  destruct (unauthorized env req); [discriminate|].
  unfold try_catch, bind, ret.
  destruct (Pipeline.unlink_if_exists env DATA_FILE w) as [[[]|e1] w1] eqn:E1;
    [|discriminate].
  destruct (Pipeline.unlink_if_exists env VEC_FILE w1) as [[[]|e2] w2] eqn:E2;
    [|discriminate].
  destruct (Pipeline.unlink_if_exists env PROJ_FILE w2) as [[[]|e3] w3] eqn:E3;
    [|discriminate].
  intros H; injection H as _ <-.
  apply unlink_if_exists_ok in E1 as [D1 _].
  apply unlink_if_exists_ok in E2 as [V2 K2].
  apply unlink_if_exists_ok in E3 as [P3 K3].
  intros [| |]; auto.
Qed.

(** [POST /reset] never answers 401 to an authorized request. *)
Lemma reset_authorized_not_401 (env : Env) (req : Request) (w : World) (m : jsstring) :
  unauthorized env req = false ->
  fst (express (Pipeline.post_reset env req) w) <> Status401 m.
Proof.
  intros Hauth. unfold express, Pipeline.post_reset. rewrite Hauth.
  unfold try_catch, bind, ret.
  destruct (Pipeline.unlink_if_exists env DATA_FILE w) as [[[]|e1] w1];
    [|simpl; discriminate].
  destruct (Pipeline.unlink_if_exists env VEC_FILE w1) as [[[]|e2] w2];
    [|simpl; discriminate].
  destruct (Pipeline.unlink_if_exists env PROJ_FILE w2) as [[[]|e3] w3];
    simpl; discriminate.
Qed.

End PipelineFacts.

(** ** Both updates on an empty ledger; the vector history *)

Module HistoryFacts.
Import JsString Js Data Effects Common.
Import StringFacts ReadFacts LedgerFacts PipelineFacts.

(** With no current sentence the word rule is skipped. *)
Lemma accepted_on_empty_ledger (env : Env) (w : World) (req : Request) :
  unauthorized env req = false ->
  current_sentence env w = [] ->
  trim (sentence_of req) <> [] ->
  ~ ends_in_terminal (trim (sentence_of req)) ->
  write_fault env DATA_FILE (fs w DATA_FILE) (trim (sentence_of req)) = None ->
  fst (express (Ledger.post_webhook_update env req) w)
  = SendText (trim (sentence_of req)) /\
  fst (express (Pipeline.post_webhook_update env req) w)
  = SendText (trim (sentence_of req)).
Proof.
  intros Hauth Hprev Hne Hterm Hw.
  apply truthy_iff in Hne. apply test_terminal_false_iff in Hterm.
  rewrite (ledger_update_cases env w req Hauth).
  rewrite (pipeline_update_cases env w req Hauth).
  cbv zeta. unfold incoming_of. rewrite Hne, Hprev, Hterm, Hw. simpl. auto.
Qed.

Lemma at_index_last {A} (lst : list A) (x : A) :
  Pipeline.at_index (lst ++ [x]) (Z.of_nat (length (lst ++ [x])) - 1) = Some x.
Proof.
  unfold Pipeline.at_index. rewrite length_app, Nat.add_1_r.
  destruct (Z.ltb_spec (Z.of_nat (S (length lst)) - 1) 0); [lia|].
  replace (Z.to_nat (Z.of_nat (S (length lst)) - 1)) with (length lst) by lia.
  rewrite nth_error_app2 by lia. rewrite Nat.sub_diag. reflexivity.
Qed.

Lemma next_step_nil : Pipeline.next_step [] = 1%Z.
Proof. reflexivity. Qed.

Lemma next_step_last (lst : list VectorRecord) (r : VectorRecord) :
  step r <> 0%Z -> Pipeline.next_step (lst ++ [r]) = (step r + 1)%Z.
Proof.
  intros Hr. unfold Pipeline.next_step. rewrite at_index_last. simpl.
  destruct (Z.eqb_spec (step r) 0); [contradiction | reflexivity].
Qed.

(** In a serialized history the next step is the length plus one, and the
    steps are [1, 2, ...]. *)
Lemma serialized_steps (h : list VectorRecord) :
  Pipeline.serialized h ->
  Pipeline.next_step h = (Z.of_nat (length h) + 1)%Z /\
  map step h = map (fun k => (Z.of_nat k + 1)%Z) (seq 0 (length h)).
Proof.
  induction 1 as [|lst time v Hser [Hnext Hsteps]].
  - split; reflexivity.
  - unfold Pipeline.push_row. split.
    + rewrite length_app, next_step_last; cbn [step length]; rewrite Hnext; lia.
    + rewrite map_app, length_app, seq_app, map_app, Hsteps. simpl.
      rewrite Hnext. reflexivity.
Qed.

End HistoryFacts.

(** ** The projection *)

Module ProjectionFacts.
Import JsString Js Data Effects Common.

Lemma or_zero_not_nan (x : option Number) : is_nan_num (or_zero x) = false.
Proof. destruct x as [[s| s| |s m e]|]; reflexivity. Qed.

Lemma or_zero_falsy (x : option Number) :
  (forall v, x = Some v -> truthy_num v = false) -> or_zero x = zero.
Proof.
  destruct x as [v|]; [|reflexivity]. intros H. simpl.
  rewrite (H v eq_refl). reflexivity.
Qed.

Lemma or_zero_undefined (row : list Number) (j : nat) :
  length row <= j -> or_zero (nth_error row j) = zero.
Proof.
  intros Hj. apply nth_error_None in Hj. rewrite Hj. reflexivity.
Qed.

(** With a projected row for every record, the callback never throws. *)
Lemma map_rows_ok (proj : list (list Number)) (vectors : list VectorRecord) :
  forall i, i + length vectors <= length proj ->
  exists out, Pipeline.map_rows proj i vectors = Ok out.
Proof.
  induction vectors as [|row rest IH]; intros i Hlen; simpl.
  - eexists; reflexivity.
  - simpl in Hlen. destruct (nth_error proj i) as [p|] eqn:Hp.
    + destruct (IH (S i)) as [out Hout]; [lia|]. rewrite Hout.
      eexists; reflexivity.
    + apply nth_error_None in Hp. lia.
Qed.

(** What the callback returns: one point per record, in order, with the
    record's step and timestamp and the triple of its projected row. *)
Lemma map_rows_spec (proj : list (list Number)) (vectors : list VectorRecord) :
  forall i out, Pipeline.map_rows proj i vectors = Ok out ->
  map pstep out = map step vectors /\
  map pt out = map t vectors /\
  forall n p, nth_error out n = Some p ->
    exists row, nth_error proj (i + n) = Some row /\ xyz p = Pipeline.triple row.
Proof.
  induction vectors as [|row rest IH]; intros i out H; simpl in H.
  - injection H as <-. repeat split; auto. intros [|n] p Hn; discriminate.
  - destruct (nth_error proj i) as [p0|] eqn:Hp; [|discriminate].
    destruct (Pipeline.map_rows proj (S i) rest) as [points|e] eqn:Hrest;
      [|discriminate].
    injection H as <-. destruct (IH (S i) points Hrest) as [Hs [Ht Hx]].
    simpl. rewrite Hs, Ht. repeat split; auto.
    intros [|n] p Hn; simpl in Hn.
    + injection Hn as <-. exists p0. rewrite Nat.add_0_r. auto.
    + destruct (Hx n p Hn) as [r [Hr Hxyz]]. exists r.
      rewrite Nat.add_succ_r. auto.
Qed.

Lemma projectTo3D_inv (env : Env) (vectors : list VectorRecord)
  (out : list ProjectionRecord) :
  Pipeline.projectTo3D env vectors = Ok out ->
  (vectors = [] /\ out = []) \/
  exists pca proj,
    PCA_new env (map vec vectors) = Ok pca /\
    predict pca (map vec vectors) (Nat.min 3 (length (getEigenvalues pca)))
    = Ok proj /\
    Pipeline.map_rows proj 0 vectors = Ok out.
Proof.
  unfold Pipeline.projectTo3D. destruct vectors as [|r rest].
  - intros H; injection H as <-. left; auto.
  - destruct (PCA_new env (map vec (r :: rest))) as [pca|e]; [|discriminate].
    destruct (predict pca (map vec (r :: rest))
                (Nat.min 3 (length (getEigenvalues pca)))) as [proj|e] eqn:Hpred;
      [|discriminate].
    intros H. right. exists pca, proj. repeat split; auto.
Qed.

Lemma projectTo3D_run (env : Env) (vectors : list VectorRecord)
  (pca : PCA) (proj : list (list Number)) :
  vectors <> [] ->
  PCA_new env (map vec vectors) = Ok pca ->
  predict pca (map vec vectors) (Nat.min 3 (length (getEigenvalues pca)))
  = Ok proj ->
  Pipeline.projectTo3D env vectors = Pipeline.map_rows proj 0 vectors.
Proof.
  intros Hne Hnew Hpred. unfold Pipeline.projectTo3D.
  destruct vectors as [|r rest]; [congruence|].
  rewrite Hnew, Hpred. reflexivity.
Qed.

Lemma triple_shape (row : list Number) :
  length (Pipeline.triple row) = 3 /\
  Forall (fun x => is_nan_num x = false) (Pipeline.triple row).
Proof.
  split; [reflexivity|].
  unfold Pipeline.triple. repeat constructor; apply or_zero_not_nan.
Qed.

Lemma triple_zero_fill (row : list Number) (k j : nat) :
  length row <= k -> k <= j -> j < 3 ->
  nth_error (Pipeline.triple row) j = Some zero.
Proof.
  intros Hrow Hk Hj. unfold Pipeline.triple.
  destruct j as [|[|[|j]]]; [| | |lia].
  - change (Some (or_zero (nth_error row 0)) = Some zero).
    rewrite or_zero_undefined by lia; reflexivity.
  - change (Some (or_zero (nth_error row 1)) = Some zero).
    rewrite or_zero_undefined by lia; reflexivity.
  - change (Some (or_zero (nth_error row 2)) = Some zero).
    rewrite or_zero_undefined by lia; reflexivity.
Qed.

End ProjectionFacts.

(** ** The detached task *)

Module TaskFacts.
Import JsString Js Data Effects Common.
Import StringFacts ReadFacts PipelineFacts.

Lemma getEmbedder_cases (env : Env) (w : World) :
  Pipeline.getEmbedder env w
  = (Pipeline.embedder_of env w, snd (Pipeline.getEmbedder env w)) /\
  fs (snd (Pipeline.getEmbedder env w)) = fs w.
Proof.
  unfold Pipeline.getEmbedder, Pipeline.embedder_of.
  destruct (embedderPromise w); auto.
Qed.

(** A read depends on the files only. *)
Lemma loadJson_same_files {A} (env : Env) (parse : jsstring -> outcome A)
  (file : path) (fallback : A) (w w0 : World) :
  fs w0 = fs w ->
  Pipeline.loadJson env parse file fallback w0
  = (fst (Pipeline.loadJson env parse file fallback w), w0).
Proof.
  intros Hfs. rewrite !loadJson_cases. unfold readFileSync. rewrite Hfs.
  simpl. destruct (fs w file); [destruct (read_fault env file)|]; reflexivity.
Qed.

Lemma vector_history_fst (env : Env) (w : World) :
  fst (Pipeline.loadJson env (JSON_parse_vectors env) VEC_FILE (Rows []) w)
  = Ok (Pipeline.vector_history env w).
Proof.
  unfold Pipeline.vector_history. rewrite loadJson_cases. reflexivity.
Qed.

(** The [try] block of the detached task as a decision table. *)
Lemma task_body_cases (env : Env) (w : World) :
  Pipeline.task_body env w =
  let w0 := snd (Pipeline.getEmbedder env w) in
  match Pipeline.embedder_of env w with
  | Throw e => (Throw e, w0)
  | Ok embed =>
      match embed (current_sentence env w) with
      | Throw e => (Throw e, w0)
      | Ok v =>
          match Pipeline.vector_history env w with
          | NotAnArray => (Throw TypeError, w0)
          | Rows lst =>
              let lst' := Pipeline.push_row lst (now env) v in
              let text := JSON_stringify_vectors env lst' in
              match write_fault env VEC_FILE (fs w VEC_FILE) text with
              | Some left_behind =>
                  (Throw EIO, with_fs w0 (set_file (fs w) VEC_FILE left_behind))
              | None =>
                  let w1 :=
                    with_fs w0
                      (set_file (fs w) VEC_FILE (Some (utf8_text false text))) in
                  match Pipeline.projectTo3D env lst' with
                  | Throw e => (Throw e, w1)
                  | Ok proj =>
                      let ptext := JSON_stringify_points env proj in
                      match write_fault env PROJ_FILE (fs w PROJ_FILE) ptext with
                      | Some left_behind =>
                          (Throw EIO,
                           with_fs w1 (set_file (fs w1) PROJ_FILE left_behind))
                      | None =>
                          (Ok tt,
                           with_fs w1
                             (set_file (fs w1) PROJ_FILE
                                       (Some (utf8_text false ptext))))
                      end
                  end
              end
          end
      end
  end.
Proof.
  destruct (getEmbedder_cases env w) as [Hget Hfs0].
  unfold Pipeline.task_body. unfold bind at 1. rewrite readSentence_total.
  unfold bind at 1. rewrite Hget. cbv zeta.
  destruct (Pipeline.embedder_of env w) as [embed|e]; [|reflexivity].
  unfold bind at 1. unfold call at 1.
  destruct (embed (current_sentence env w)) as [v|e]; [|reflexivity].
  unfold bind at 1.
  rewrite (loadJson_same_files env _ VEC_FILE (Rows []) w _ Hfs0).
  rewrite vector_history_fst.
  destruct (Pipeline.vector_history env w) as [lst|]; [|reflexivity].
  unfold bind at 1. unfold Pipeline.saveJson at 1. unfold writeFileSync at 1.
  rewrite Hfs0.
  destruct (write_fault env VEC_FILE (fs w VEC_FILE)
              (JSON_stringify_vectors env (Pipeline.push_row lst (now env) v)));
    [reflexivity|].
  unfold bind at 1. unfold call at 1.
  destruct (Pipeline.projectTo3D env (Pipeline.push_row lst (now env) v))
    as [proj|e]; [|reflexivity].
  unfold Pipeline.saveJson, writeFileSync. cbn [fs with_fs].
  rewrite (set_file_other (fs w) VEC_FILE PROJ_FILE) by discriminate.
  destruct (write_fault env PROJ_FILE (fs w PROJ_FILE)
              (JSON_stringify_points env proj)); reflexivity.
Qed.

(** The state after the task, whatever the [try] block did. *)
Lemma background_task_state (env : Env) (w : World) :
  fs (snd (Pipeline.background_task env w))
  = fs (snd (Pipeline.task_body env w)).
Proof.
  unfold Pipeline.background_task, try_catch, Pipeline.console_error.
  destruct (Pipeline.task_body env w) as [[[]|e] w']; reflexivity.
Qed.

End TaskFacts.

(** * The properties of the specification *)

Import JsString Js Data Effects Common.
Import StringFacts ReadFacts AuthFacts LedgerFacts PipelineFacts HistoryFacts.
Import ProjectionFacts TaskFacts.

(** C1, as amended.  With a non-empty current sentence [S] and a candidate
    [C]:
    - the update of [src/server.js] accepts [C] exactly when [C] trimmed is
      not empty, [C] has one word more than [S], and [C] trimmed does not end
      in ['.'], ['!'] or ['?']; a candidate that fails is answered with one of
      three reasons, checked in this order: empty input, then word count, then
      trailing punctuation;
    - the update of the pipeline server has neither the word rule nor the
      punctuation rule: it accepts [C] exactly when [C] trimmed is not empty,
      and empty input is its only reason to reject.
    "Accepts" is read both as "no validation failure" and, when the write of
    the sentence file goes through, as "answers with the trimmed candidate". *)
Theorem propose_accepts_iff (env : Env) (w : World) (req : Request) :
  unauthorized env req = false ->
  current_sentence env w <> [] ->
  let S := current_sentence env w in
  let C := sentence_of req in
  let r := fst (express (Ledger.post_webhook_update env req) w) in
  let r' := fst (express (Pipeline.post_webhook_update env req) w) in
  let valid :=
    trim C <> [] /\ word_count C = word_count S + 1 /\
    ~ ends_in_terminal (trim C) in
  ((rejection r = None <-> valid) /\
   (write_fault env DATA_FILE (fs w DATA_FILE) (trim C) = None ->
    (r = SendText (trim C) <-> valid)) /\
   (rejection r = Some EmptyInput <-> trim C = []) /\
   (rejection r = Some WordCountMismatch <->
    trim C <> [] /\ word_count C <> word_count S + 1) /\
   (rejection r = Some TrailingPunctuation <->
    trim C <> [] /\ word_count C = word_count S + 1 /\
    ends_in_terminal (trim C))) /\
  ((rejection r' = None <-> trim C <> []) /\
   (write_fault env DATA_FILE (fs w DATA_FILE) (trim C) = None ->
    (r' = SendText (trim C) <-> trim C <> [])) /\
   (rejection r' = Some EmptyInput <-> trim C = [])).
Proof.
  intros Hauth Hprev S C r r' valid. split.
  - assert (Hr : r = fst (express (Ledger.post_webhook_update env req) w))
      by reflexivity.
    clearbody r. clear r'.
    rewrite (ledger_update_cases env w req Hauth) in Hr. cbv zeta in Hr.
    unfold incoming_of in Hr. fold C in Hr. fold S in Hr.
    rewrite !count_word_count, word_count_trim in Hr.
    apply truthy_iff in Hprev. fold S in Hprev. rewrite Hprev in Hr.
    simpl andb in Hr. subst valid.
    destruct (truthy (trim C)) eqn:Hne; simpl negb in Hr; cbv iota in Hr.
    2:{ apply truthy_false_iff in Hne. rewrite Hr; simpl fst.
        rewrite rejection_missing.
        repeat split; try tauto; try discriminate; try (intros [? _]; tauto). }
    apply truthy_iff in Hne.
    destruct (word_count C =? word_count S + 1)%nat eqn:Hcount;
      simpl negb in Hr; cbv iota in Hr.
    2:{ apply Nat.eqb_neq in Hcount. rewrite Hr; simpl fst.
        rewrite rejection_one_word.
        repeat split; try tauto; try discriminate;
          try (intros [_ [? _]]; tauto). }
    apply Nat.eqb_eq in Hcount.
    destruct (test_terminal (trim C)) eqn:Hterm.
    { apply test_terminal_iff in Hterm. rewrite Hr; simpl fst.
      rewrite rejection_punctuation.
      repeat split; try tauto; try discriminate;
        try (intros [_ [_ ?]]; tauto). }
    apply test_terminal_false_iff in Hterm.
    destruct (write_fault env DATA_FILE (fs w DATA_FILE) (trim C)) eqn:Hw;
      rewrite Hr; simpl fst; simpl rejection;
      repeat split; try tauto; try discriminate; try (intros [? _]; tauto);
      try (intros [_ [? _]]; tauto); try (intros [_ [_ ?]]; tauto).
  - assert (Hr : r' = fst (express (Pipeline.post_webhook_update env req) w))
      by reflexivity.
    clearbody r'. clear r valid.
    rewrite (pipeline_update_cases env w req Hauth) in Hr. cbv zeta in Hr.
    unfold incoming_of in Hr. fold C in Hr.
    destruct (truthy (trim C)) eqn:Hne; simpl negb in Hr; cbv iota in Hr.
    2:{ apply truthy_false_iff in Hne. rewrite Hr; simpl fst.
        rewrite rejection_missing.
        repeat split; try tauto; try discriminate. }
    apply truthy_iff in Hne.
    destruct (write_fault env DATA_FILE (fs w DATA_FILE) (trim C)) eqn:Hw;
      rewrite Hr; simpl fst; simpl rejection;
      repeat split; try tauto; try discriminate.
Qed.

(** The scenario of the specification: over ["the rabbit hole"], the
    candidate ["the rabbit hole goes"] is accepted and returned verbatim. *)
Lemma propose_accepts_iff_witness :
  unauthorized Demo.env (Demo.propose "the rabbit hole goes") = false /\
  current_sentence Demo.env (Demo.world_with (Some (js "the rabbit hole"))) <> [] /\
  fst (express (Ledger.post_webhook_update Demo.env
                  (Demo.propose "the rabbit hole goes"))
         (Demo.world_with (Some (js "the rabbit hole"))))
  = SendText (js "the rabbit hole goes").
Proof.
  assert (Hauth : unauthorized Demo.env (Demo.propose "the rabbit hole goes") = false)
    by reflexivity.
  assert (Hprev : current_sentence Demo.env
                    (Demo.world_with (Some (js "the rabbit hole"))) <> [])
    by (vm_compute; discriminate).
  split; [exact Hauth|]. split; [exact Hprev|].
  destruct (propose_accepts_iff Demo.env
              (Demo.world_with (Some (js "the rabbit hole")))
              (Demo.propose "the rabbit hole goes") Hauth Hprev)
    as [[_ [Haccept _]] _].
  apply (Haccept eq_refl). split; [vm_compute; discriminate|].
  split; [reflexivity|].
  apply test_terminal_false_iff. reflexivity.
Defined.

(** C1 as the specification states it fails on the pipeline server: over
    ["the rabbit hole goes"] (4 words) it accepts the 6-word candidate
    ["the rabbit hole goes way deeper"], and the candidate
    ["the rabbit hole goes deep."] that ends in a full stop. *)
Lemma propose_word_rule_absent_in_pipeline :
  current_sentence Demo.env (Demo.world_with (Some (js "the rabbit hole goes")))
  <> [] /\
  ~ (fst (express (Pipeline.post_webhook_update Demo.env
                     (Demo.propose "the rabbit hole goes way deeper"))
            (Demo.world_with (Some (js "the rabbit hole goes"))))
     = SendText (trim (js "the rabbit hole goes way deeper"))
     <->
     trim (js "the rabbit hole goes way deeper") <> [] /\
     word_count (js "the rabbit hole goes way deeper")
     = word_count (current_sentence Demo.env
                     (Demo.world_with (Some (js "the rabbit hole goes")))) + 1 /\
     ~ ends_in_terminal (trim (js "the rabbit hole goes way deeper"))) /\
  ~ (fst (express (Pipeline.post_webhook_update Demo.env
                     (Demo.propose "the rabbit hole goes deep."))
            (Demo.world_with (Some (js "the rabbit hole goes"))))
     = SendText (trim (js "the rabbit hole goes deep."))
     <->
     trim (js "the rabbit hole goes deep.") <> [] /\
     word_count (js "the rabbit hole goes deep.")
     = word_count (current_sentence Demo.env
                     (Demo.world_with (Some (js "the rabbit hole goes")))) + 1 /\
     ~ ends_in_terminal (trim (js "the rabbit hole goes deep."))).
Proof.
  split; [vm_compute; discriminate|]. split.
  - intros [H _]. destruct (H eq_refl) as [_ [Hcount _]].
    vm_compute in Hcount. discriminate.
  - intros [H _]. destruct (H eq_refl) as [_ [_ Hterm]].
    apply Hterm, test_terminal_iff. reflexivity.
Qed.

(** C2.  Bootstrap: when the current sentence is empty, a candidate whose
    trimmed form is not empty and does not end in terminal punctuation is
    accepted whatever its word count, by the update of either server. *)
Theorem bootstrap_accepts_any_word_count (env : Env) (w : World) (req : Request) :
  unauthorized env req = false ->
  current_sentence env w = [] ->
  trim (sentence_of req) <> [] ->
  ~ ends_in_terminal (trim (sentence_of req)) ->
  write_fault env DATA_FILE (fs w DATA_FILE) (trim (sentence_of req)) = None ->
  fst (express (Ledger.post_webhook_update env req) w)
  = SendText (trim (sentence_of req)) /\
  fst (express (Pipeline.post_webhook_update env req) w)
  = SendText (trim (sentence_of req)).
Proof. exact (accepted_on_empty_ledger env w req). Qed.

(** On an empty ledger a five-word opening sentence is accepted. *)
Lemma bootstrap_accepts_any_word_count_witness :
  fst (express (Ledger.post_webhook_update Demo.env
                  (Demo.propose "  down the rabbit hole we "))
         (Demo.world_with None))
  = SendText (js "down the rabbit hole we") /\
  fst (express (Pipeline.post_webhook_update Demo.env
                  (Demo.propose "  down the rabbit hole we "))
         (Demo.world_with None))
  = SendText (js "down the rabbit hole we").
Proof.
  apply (bootstrap_accepts_any_word_count Demo.env (Demo.world_with None)
           (Demo.propose "  down the rabbit hole we ")).
  - reflexivity.
  - reflexivity.
  - vm_compute; discriminate.
  - apply test_terminal_false_iff; reflexivity.
  - reflexivity.
Defined.

(** C3.  A proposal rejected for a validation reason (empty input, word
    count, trailing punctuation) leaves the whole state as it was: the
    sentence file is not written, by either server. *)
Theorem rejected_proposal_changes_nothing (env : Env) (w w' : World)
  (req : Request) (r : Response) :
  rejection r <> None ->
  (express (Ledger.post_webhook_update env req) w = (r, w') -> w' = w) /\
  (express (Pipeline.post_webhook_update env req) w = (r, w') -> w' = w).
Proof.
  intros Hrej. split; intros H.
  - destruct (unauthorized env req) eqn:Hauth.
    + unfold express, Ledger.post_webhook_update in H. rewrite Hauth in H.
      injection H as <- <-. reflexivity.
    + rewrite (ledger_update_cases env w req Hauth) in H. cbv zeta in H.
      destruct (negb (truthy (incoming_of req))); [congruence|].
      destruct (truthy (current_sentence env w) && _); [congruence|].
      destruct (test_terminal (incoming_of req)); [congruence|].
      destruct (write_fault env DATA_FILE (fs w DATA_FILE) (incoming_of req));
        injection H as <- <-; exfalso; apply Hrej; reflexivity.
  - destruct (unauthorized env req) eqn:Hauth.
    + unfold express, Pipeline.post_webhook_update in H. rewrite Hauth in H.
      injection H as <- <-. reflexivity.
    + rewrite (pipeline_update_cases env w req Hauth) in H. cbv zeta in H.
      destruct (negb (truthy (incoming_of req))); [congruence|].
      destruct (write_fault env DATA_FILE (fs w DATA_FILE) (incoming_of req));
        injection H as <- <-; exfalso; apply Hrej; reflexivity.
Qed.

(** The scenario of the specification: over ["the rabbit hole goes"], the
    candidate ["the rabbit hole goes deep."] is rejected for its trailing
    punctuation and the state stays as it was. *)
Lemma rejected_proposal_changes_nothing_witness :
  rejection (fst (express (Ledger.post_webhook_update Demo.env
                             (Demo.propose "the rabbit hole goes deep."))
                    (Demo.world_with (Some (js "the rabbit hole goes")))))
  = Some TrailingPunctuation /\
  snd (express (Ledger.post_webhook_update Demo.env
                  (Demo.propose "the rabbit hole goes deep."))
         (Demo.world_with (Some (js "the rabbit hole goes"))))
  = Demo.world_with (Some (js "the rabbit hole goes")).
Proof.
  split; [reflexivity|].
  refine (proj1 (rejected_proposal_changes_nothing Demo.env
           (Demo.world_with (Some (js "the rabbit hole goes")))
           (snd (express (Ledger.post_webhook_update Demo.env
                            (Demo.propose "the rabbit hole goes deep."))
                   (Demo.world_with (Some (js "the rabbit hole goes")))))
           (Demo.propose "the rabbit hole goes deep.")
           (Status400 punctuation_msg) _) _).
  - discriminate.
  - reflexivity.
Defined.

(** C4.  When appends run one after the other, each assigning the last step
    (or 0) plus one, the k-th record of the history carries step k: the steps
    start at 1 and go up by one without a gap. *)
Theorem serialized_steps_have_no_gaps (h : list VectorRecord) :
  Pipeline.serialized h ->
  (forall k r, nth_error h k = Some r -> step r = (Z.of_nat k + 1)%Z) /\
  map step h = map (fun k => (Z.of_nat k + 1)%Z) (seq 0 (length h)).
Proof.
  intros Hser. destruct (serialized_steps h Hser) as [_ Hsteps].
  split; [|exact Hsteps].
  intros k r Hk.
  assert (Hlt : k < length h) by (apply nth_error_Some; congruence).
  apply (map_nth_error step) in Hk. rewrite Hsteps in Hk.
  assert (Hseq : nth_error (seq 0 (length h)) k = Some k).
  { rewrite nth_error_nth' with (d := 0) by (rewrite length_seq; exact Hlt).
    rewrite seq_nth by exact Hlt. reflexivity. }
  apply (map_nth_error (fun k => (Z.of_nat k + 1)%Z)) in Hseq.
  congruence.
Qed.

(** Three appends from the empty history: the third row carries step 3. *)
Lemma serialized_steps_have_no_gaps_witness :
  map step
    (Pipeline.push_row
       (Pipeline.push_row
          (Pipeline.push_row [] (js "t1") [Demo.half])
          (js "t2") [Demo.minus_quarter])
       (js "t3") [Demo.half])
  = [1; 2; 3]%Z.
Proof.
  refine (proj2 (serialized_steps_have_no_gaps _ _)).
  repeat apply Pipeline.serialized_push. apply Pipeline.serialized_empty.
Defined.

(** C7.  A read of persisted state that fails, because the file is missing,
    cannot be read, or does not parse, gives the empty default and raises
    nothing: [readSentence] gives the empty string, [loadJson] gives its
    fallback, which is the empty array at every call; the state is left as
    it was. *)
Theorem failed_read_falls_back_to_empty (env : Env) (w : World) :
  readSentence env w = (Ok (current_sentence env w), w) /\
  (forall e, fst (readFileSync env DATA_FILE w) = Throw e ->
     current_sentence env w = [] /\
     express (get_sentence env) w = (SendText [], w)) /\
  (forall A (parse : jsstring -> outcome A) file fallback,
     exists v, Pipeline.loadJson env parse file fallback w = (Ok v, w) /\
       (forall e, fst (readFileSync env file w) = Throw e -> v = fallback) /\
       (forall text e, fst (readFileSync env file w) = Ok text ->
          parse text = Throw e -> v = fallback)) /\
  (forall e,
     fst (readFileSync env VEC_FILE w) = Throw e \/
     (exists text, fst (readFileSync env VEC_FILE w) = Ok text /\
        JSON_parse_vectors env text = Throw e) ->
     Pipeline.vector_history env w = Rows []) /\
  (forall e,
     fst (readFileSync env PROJ_FILE w) = Throw e \/
     (exists text, fst (readFileSync env PROJ_FILE w) = Ok text /\
        JSON_parse_points env text = Throw e) ->
     Pipeline.projection_output env w = Rows [] /\
     express (Pipeline.get_vectors3d env) w = (SendPoints (Rows []), w)).
Proof.
  split; [apply readSentence_total|]. split.
  { intros e He.
    assert (Hcur : current_sentence env w = []).
    { unfold current_sentence, readSentence, try_catch, bind.
      destruct (readFileSync env DATA_FILE w) as [[text|e'] w0];
        [discriminate | reflexivity]. }
    split; [exact Hcur|].
    unfold express, get_sentence, bind. rewrite readSentence_total, Hcur.
    reflexivity. }
  split.
  { intros A parse file fallback. eexists. split; [apply loadJson_cases|].
    split.
    - intros e He. destruct (readFileSync env file w) as [[text|e'] w0];
        [discriminate | reflexivity].
    - intros text e He Hp.
      destruct (readFileSync env file w) as [[text'|e'] w0]; [|reflexivity].
      simpl in He. injection He as ->. rewrite Hp. reflexivity. }
  split.
  { intros e H. unfold Pipeline.vector_history. rewrite loadJson_cases.
    destruct (readFileSync env VEC_FILE w) as [[text|e'] w0]; [|reflexivity].
    destruct H as [H | [text' [H Hp]]]; [discriminate|].
    simpl in H. injection H as ->. rewrite Hp. reflexivity. }
  { intros e H.
    assert (Hout : Pipeline.projection_output env w = Rows []).
    { unfold Pipeline.projection_output. rewrite loadJson_cases.
      destruct (readFileSync env PROJ_FILE w) as [[text|e'] w0]; [|reflexivity].
      destruct H as [H | [text' [H Hp]]]; [discriminate|].
      simpl in H. injection H as ->. rewrite Hp. reflexivity. }
    split; [exact Hout|].
    unfold Pipeline.projection_output in Hout.
    unfold express, Pipeline.get_vectors3d, bind.
    rewrite loadJson_cases in *. rewrite Hout. reflexivity. }
Qed.

(** With no data file at all, the three reads give their empty defaults. *)
Lemma failed_read_falls_back_to_empty_witness :
  current_sentence Demo.env (Demo.world_with None) = [] /\
  Pipeline.vector_history Demo.env (Demo.world_with None) = Rows [] /\
  Pipeline.projection_output Demo.env (Demo.world_with None) = Rows [].
Proof.
  destruct (failed_read_falls_back_to_empty Demo.env (Demo.world_with None))
    as [_ [Hs [_ [Hv Hp]]]].
  split; [apply (Hs ENOENT); reflexivity|].
  split; [apply (Hv ENOENT); left; reflexivity|].
  apply (Hp ENOENT); left; reflexivity.
Defined.

(** C8.  After a reset that answered [ok], the sentence reads as the empty
    string and the vector history and the projection output read as the empty
    array; the next proposal is treated as on an empty ledger: it is accepted
    at any word count. *)
Theorem reset_returns_to_bootstrap (env env' : Env) (w w' : World)
  (req : Request) (m : jsstring) :
  express (Pipeline.post_reset env req) w = (JsonOkMessage m, w') ->
  current_sentence env' w' = [] /\
  Pipeline.vector_history env' w' = Rows [] /\
  Pipeline.projection_output env' w' = Rows [] /\
  express (get_sentence env') w' = (SendText [], w') /\
  express (Pipeline.get_vectors3d env') w' = (SendPoints (Rows []), w') /\
  (forall req',
     unauthorized env' req' = false ->
     trim (sentence_of req') <> [] ->
     ~ ends_in_terminal (trim (sentence_of req')) ->
     write_fault env' DATA_FILE None (trim (sentence_of req')) = None ->
     fst (express (Ledger.post_webhook_update env' req') w')
     = SendText (trim (sentence_of req')) /\
     fst (express (Pipeline.post_webhook_update env' req') w')
     = SendText (trim (sentence_of req'))).
Proof.
  intros Hreset. pose proof (reset_ok_clears env req w w' m Hreset) as Hgone.
  assert (Hcur : current_sentence env' w' = []).
  { rewrite current_sentence_cases, (Hgone DATA_FILE). reflexivity. }
  assert (Hvec : Pipeline.vector_history env' w' = Rows []).
  { unfold Pipeline.vector_history. rewrite loadJson_cases.
    unfold readFileSync. rewrite (Hgone VEC_FILE). reflexivity. }
  assert (Hproj : Pipeline.projection_output env' w' = Rows []).
  { unfold Pipeline.projection_output. rewrite loadJson_cases.
    unfold readFileSync. rewrite (Hgone PROJ_FILE). reflexivity. }
  repeat split; auto.
  - unfold express, get_sentence, bind. rewrite readSentence_total, Hcur.
    reflexivity.
  - unfold Pipeline.projection_output in Hproj.
    unfold express, Pipeline.get_vectors3d, bind.
    rewrite loadJson_cases in *. rewrite Hproj. reflexivity.
  - apply (accepted_on_empty_ledger env' w' req'); auto.
    rewrite (Hgone DATA_FILE); assumption.
  - apply (accepted_on_empty_ledger env' w' req'); auto.
    rewrite (Hgone DATA_FILE); assumption.
Qed.

(** A ledger holding ["the rabbit hole"] is reset; the sentence then reads
    empty and a four-word proposal is accepted. *)
Lemma reset_returns_to_bootstrap_witness :
  fst (express (Pipeline.post_reset Demo.env Demo.reset)
         (Demo.world_with (Some (js "the rabbit hole"))))
  = JsonOkMessage (js "All data cleared") /\
  current_sentence Demo.env
    (snd (express (Pipeline.post_reset Demo.env Demo.reset)
            (Demo.world_with (Some (js "the rabbit hole")))))
  = [] /\
  fst (express (Ledger.post_webhook_update Demo.env
                  (Demo.propose "down the rabbit hole"))
         (snd (express (Pipeline.post_reset Demo.env Demo.reset)
                 (Demo.world_with (Some (js "the rabbit hole"))))))
  = SendText (js "down the rabbit hole").
Proof.
  assert (Hreset :
    express (Pipeline.post_reset Demo.env Demo.reset)
      (Demo.world_with (Some (js "the rabbit hole")))
    = (JsonOkMessage (js "All data cleared"),
       snd (express (Pipeline.post_reset Demo.env Demo.reset)
              (Demo.world_with (Some (js "the rabbit hole"))))))
    by reflexivity.
  destruct (reset_returns_to_bootstrap Demo.env Demo.env _ _ _ _ Hreset)
    as [Hcur [_ [_ [_ [_ Hnext]]]]].
  split; [reflexivity|]. split; [exact Hcur|].
  refine (proj1 (Hnext (Demo.propose "down the rabbit hole") eq_refl _ _ eq_refl)).
  - vm_compute; discriminate.
  - apply test_terminal_false_iff; reflexivity.
Defined.

(** C10.  Access to the protected routes (the update of either server and
    the reset) is granted exactly when the configured secret is not empty
    and the token equals it; with the secret unset or empty every request is
    answered 401, also one whose token is the empty string. *)
Theorem access_granted_iff (env : Env) (req : Request) (w : World) :
  let token := or_empty (x_secret req) in
  (unauthorized env req = false <->
   SECRET env <> [] /\ token = SECRET env) /\
  (fst (express (Ledger.post_webhook_update env req) w)
   = Status401 unauthorized_msg <-> unauthorized env req = true) /\
  (fst (express (Pipeline.post_webhook_update env req) w)
   = Status401 unauthorized_msg <-> unauthorized env req = true) /\
  (fst (express (Pipeline.post_reset env req) w)
   = Status401 unauthorized_msg <-> unauthorized env req = true) /\
  (WEBHOOK_SECRET env = None \/ WEBHOOK_SECRET env = Some [] ->
   unauthorized env req = true).
Proof.
  intros token. split; [apply authorized_iff|].
  split; [|split; [|split]].
  - destruct (unauthorized env req) eqn:Hauth.
    + unfold express, Ledger.post_webhook_update. rewrite Hauth. simpl. tauto.
    + rewrite (ledger_update_cases env w req Hauth). cbv zeta.
      destruct (negb (truthy (incoming_of req)));
        [simpl; split; discriminate|].
      destruct (truthy (current_sentence env w) && _);
        [simpl; split; discriminate|].
      destruct (test_terminal (incoming_of req));
        [simpl; split; discriminate|].
      destruct (write_fault env DATA_FILE (fs w DATA_FILE) (incoming_of req));
        simpl; split; discriminate.
  - destruct (unauthorized env req) eqn:Hauth.
    + unfold express, Pipeline.post_webhook_update. rewrite Hauth. simpl. tauto.
    + rewrite (pipeline_update_cases env w req Hauth). cbv zeta.
      destruct (negb (truthy (incoming_of req)));
        [simpl; split; discriminate|].
      destruct (write_fault env DATA_FILE (fs w DATA_FILE) (incoming_of req));
        simpl; split; discriminate.
  - destruct (unauthorized env req) eqn:Hauth.
    + unfold express, Pipeline.post_reset. rewrite Hauth. simpl. tauto.
    + split; [|discriminate]. intros H.
      exfalso. exact (reset_authorized_not_401 env req w _ Hauth H).
  - intros Hsecret. unfold unauthorized, SECRET.
    destruct Hsecret as [-> | ->]; reflexivity.
Qed.

(** With no secret configured, a request with an empty token is refused by
    the update and by the reset. *)
Lemma access_granted_iff_witness :
  fst (express (Ledger.post_webhook_update Demo.env_no_secret
                  (mkRequest (Some []) (TextBody (js "hello"))))
         (Demo.world_with None))
  = Status401 unauthorized_msg /\
  fst (express (Pipeline.post_reset Demo.env_no_secret
                  (mkRequest (Some []) NoBody))
         (Demo.world_with None))
  = Status401 unauthorized_msg.
Proof.
  split.
  - destruct (access_granted_iff Demo.env_no_secret
                (mkRequest (Some []) (TextBody (js "hello")))
                (Demo.world_with None)) as [_ [Hupdate [_ [_ Hunset]]]].
    apply Hupdate, Hunset. left; reflexivity.
  - destruct (access_granted_iff Demo.env_no_secret
                (mkRequest (Some []) NoBody)
                (Demo.world_with None)) as [_ [_ [_ [Hreset Hunset]]]].
    apply Hreset, Hunset. left; reflexivity.
Defined.

(** C5.  [projectTo3D] returns one projection per record, in the order of
    the input, each with the step and the timestamp of its record; it returns
    the empty sequence on the empty input and, on a single record, one
    projection with [xyz = [0, 0, 0]].  PCA is a library: the result exists
    when PCA hands back a row for every record, and the single point is at
    the origin when PCA puts it there. *)
Theorem projectTo3D_keeps_records (env : Env) :
  Pipeline.projectTo3D env [] = Ok [] /\
  (forall vectors out,
     Pipeline.projectTo3D env vectors = Ok out ->
     length out = length vectors /\
     map pstep out = map step vectors /\
     map pt out = map t vectors) /\
  (forall vectors pca proj,
     vectors <> [] ->
     PCA_new env (map vec vectors) = Ok pca ->
     predict pca (map vec vectors) (Nat.min 3 (length (getEigenvalues pca)))
     = Ok proj ->
     length vectors <= length proj ->
     exists out, Pipeline.projectTo3D env vectors = Ok out) /\
  (forall r pca row rest,
     PCA_new env [vec r] = Ok pca ->
     predict pca [vec r] (Nat.min 3 (length (getEigenvalues pca)))
     = Ok (row :: rest) ->
     Pipeline.at_origin row ->
     Pipeline.projectTo3D env [r]
     = Ok [mkProjectionRecord (step r) (t r) [zero; zero; zero]]).
Proof.
  split; [reflexivity|]. split; [|split].
  - intros vectors out H.
    destruct (projectTo3D_inv env vectors out H)
      as [[-> ->] | (pca & proj & _ & _ & Hrows)]; [auto|].
    destruct (map_rows_spec proj vectors 0 out Hrows) as [Hs [Ht _]].
    split; [|auto].
    rewrite <- (length_map pstep out), Hs. apply length_map.
  - intros vectors pca proj Hne Hnew Hpred Hlen.
    rewrite (projectTo3D_run env vectors pca proj Hne Hnew Hpred).
    apply map_rows_ok. simpl. exact Hlen.
  - intros r pca row rest Hnew Hpred Horigin.
    rewrite (projectTo3D_run env [r] pca (row :: rest)); auto; [|discriminate].
    simpl. unfold Pipeline.triple.
    assert (Hz : forall j, or_zero (nth_error row j) = zero).
    { intros j. apply or_zero_falsy. intros v Hv.
      apply nth_error_In in Hv. unfold Pipeline.at_origin in Horigin.
      rewrite Forall_forall in Horigin. auto. }
    rewrite !Hz. reflexivity.
Qed.

(** Two records keep their steps and timestamps; a single record whose
    projected row is a zero and a [NaN] comes out as [[0, 0, 0]]. *)
Lemma projectTo3D_keeps_records_witness :
  (exists out,
     Pipeline.projectTo3D Demo.env
       [mkVectorRecord 1 (js "t1") [Demo.half; Demo.minus_quarter; Demo.half];
        mkVectorRecord 2 (js "t2") [Demo.minus_quarter; Demo.half; Demo.half]]
     = Ok out) /\
  Pipeline.projectTo3D Demo.env [mkVectorRecord 1 (js "t1") [zero; S754_nan]]
  = Ok [mkProjectionRecord 1 (js "t1") [zero; zero; zero]].
Proof.
  destruct (projectTo3D_keeps_records Demo.env) as [_ [_ [Hrun Hone]]].
  split.
  - apply (Hrun _ Demo.pca
             [[Demo.half; Demo.minus_quarter]; [Demo.minus_quarter; Demo.half]]).
    + discriminate.
    + reflexivity.
    + reflexivity.
    + simpl; lia.
  - apply (Hone (mkVectorRecord 1 (js "t1") [zero; S754_nan]) Demo.pca
             [zero; S754_nan] []).
    + reflexivity.
    + reflexivity.
    + repeat constructor.
Defined.

(** C6.  On a non-empty input, with [k = min(3, number of eigenvalues)] and
    a projection of [k] columns, the coordinates of [xyz] from index [k] on
    are filled with zero; and whatever PCA returns, every [xyz] has three
    coordinates, none of them [NaN]. *)
Theorem projectTo3D_zero_fills (env : Env) (vectors : list VectorRecord) :
  (forall out,
     Pipeline.projectTo3D env vectors = Ok out ->
     Forall (fun p => length (xyz p) = 3 /\
                      Forall (fun x => is_nan_num x = false) (xyz p)) out) /\
  (forall pca proj,
     vectors <> [] ->
     PCA_new env (map vec vectors) = Ok pca ->
     let k := Nat.min 3 (length (getEigenvalues pca)) in
     predict pca (map vec vectors) k = Ok proj ->
     length proj = length vectors ->
     Forall (fun row => length row = k) proj ->
     exists out,
       Pipeline.projectTo3D env vectors = Ok out /\
       length out = length vectors /\
       Forall (fun p => forall j, k <= j -> j < 3 ->
                         nth_error (xyz p) j = Some zero) out).
Proof.
  split.
  - intros out H.
    destruct (projectTo3D_inv env vectors out H)
      as [[_ ->] | (pca & proj & _ & _ & Hrows)]; [constructor|].
    destruct (map_rows_spec proj vectors 0 out Hrows) as [_ [_ Hx]].
    apply Forall_forall. intros p Hp.
    apply In_nth_error in Hp as [n Hn].
    destruct (Hx n p Hn) as [row [_ ->]]. apply triple_shape.
  - intros pca proj Hne Hnew k Hpred Hlen Hcols.
    destruct (map_rows_ok proj vectors 0) as [out Hout]; [simpl; lia|].
    exists out. rewrite (projectTo3D_run env vectors pca proj Hne Hnew Hpred).
    destruct (map_rows_spec proj vectors 0 out Hout) as [Hs [_ Hx]].
    split; [exact Hout|]. split.
    + rewrite <- (length_map pstep out), Hs. apply length_map.
    + apply Forall_forall. intros p Hp.
      apply In_nth_error in Hp as [n Hn].
      destruct (Hx n p Hn) as [row [Hrow ->]]. intros j Hkj Hj.
      apply (triple_zero_fill row k j); auto.
      rewrite Forall_forall in Hcols.
      rewrite (Hcols row (nth_error_In _ _ Hrow)). auto.
Qed.

(** With two eigenvalues, the third coordinate is filled with zero, and a
    [NaN] in the projection comes out as zero. *)
Lemma projectTo3D_zero_fills_witness :
  Pipeline.projectTo3D Demo.env
    [mkVectorRecord 1 (js "t1") [Demo.half; S754_nan; Demo.half];
     mkVectorRecord 2 (js "t2") [Demo.minus_quarter; Demo.half; Demo.half]]
  = Ok [mkProjectionRecord 1 (js "t1") [Demo.half; zero; zero];
        mkProjectionRecord 2 (js "t2") [Demo.minus_quarter; Demo.half; zero]] /\
  exists out,
    Pipeline.projectTo3D Demo.env
      [mkVectorRecord 1 (js "t1") [Demo.half; S754_nan; Demo.half];
       mkVectorRecord 2 (js "t2") [Demo.minus_quarter; Demo.half; Demo.half]]
    = Ok out /\
    length out = 2 /\
    Forall (fun p => forall j, 2 <= j -> j < 3 ->
                      nth_error (xyz p) j = Some zero) out.
Proof.
  split; [reflexivity|].
  apply (proj2 (projectTo3D_zero_fills Demo.env
                  [mkVectorRecord 1 (js "t1") [Demo.half; S754_nan; Demo.half];
                   mkVectorRecord 2 (js "t2")
                     [Demo.minus_quarter; Demo.half; Demo.half]])
           Demo.pca [[Demo.half; S754_nan]; [Demo.minus_quarter; Demo.half]]).
  - discriminate.
  - reflexivity.
  - reflexivity.
  - reflexivity.
  - repeat constructor.
Defined.

(** C9.  A failure in the detached task (loading the model, embedding,
    reading or saving the vector history, projecting, saving the projection)
    never reaches the caller of the update: the task ends normally and the
    answer was the accepted sentence.  The task never touches the sentence
    file; a failure before the vector save leaves every file as it was; a
    failure of the projection, or of the vector save, leaves the projection
    file as it was. *)
Theorem background_failures_are_contained (env : Env) (w : World) :
  let w' := snd (Pipeline.background_task env w) in
  let S := current_sentence env w in
  Pipeline.background_task env w = (Ok tt, w') /\
  (forall req,
     unauthorized env req = false ->
     trim (sentence_of req) <> [] ->
     write_fault env DATA_FILE (fs w DATA_FILE) (trim (sentence_of req)) = None ->
     fst (express (Pipeline.post_webhook_update env req) w)
     = SendText (trim (sentence_of req))) /\
  fs w' DATA_FILE = fs w DATA_FILE /\
  (forall e, Pipeline.embedder_of env w = Throw e ->
     forall p, fs w' p = fs w p) /\
  (forall embed e,
     Pipeline.embedder_of env w = Ok embed -> embed S = Throw e ->
     forall p, fs w' p = fs w p) /\
  (Pipeline.vector_history env w = NotAnArray ->
   forall p, fs w' p = fs w p) /\
  (forall embed v lst,
     Pipeline.embedder_of env w = Ok embed -> embed S = Ok v ->
     Pipeline.vector_history env w = Rows lst ->
     let text := JSON_stringify_vectors env (Pipeline.push_row lst (now env) v) in
     (forall left_behind,
        write_fault env VEC_FILE (fs w VEC_FILE) text = Some left_behind ->
        fs w' PROJ_FILE = fs w PROJ_FILE) /\
     (forall e,
        write_fault env VEC_FILE (fs w VEC_FILE) text = None ->
        Pipeline.projectTo3D env (Pipeline.push_row lst (now env) v) = Throw e ->
        fs w' PROJ_FILE = fs w PROJ_FILE /\
        fs w' VEC_FILE = Some (utf8_text false text))).
Proof.
  intros w' S. subst w'.
  destruct (getEmbedder_cases env w) as [_ Hfs0].
  split; [apply background_task_total|].
  split.
  { intros req Hauth Hne Hw. apply truthy_iff in Hne.
    rewrite (pipeline_update_cases env w req Hauth). cbv zeta.
    unfold incoming_of. rewrite Hne, Hw. reflexivity. }
  rewrite background_task_state, task_body_cases. cbv zeta. fold S.
  split.
  { destruct (Pipeline.embedder_of env w) as [embed|e];
      [|simpl; rewrite Hfs0; reflexivity].
    destruct (embed S) as [v|e]; [|simpl; rewrite Hfs0; reflexivity].
    destruct (Pipeline.vector_history env w) as [lst|];
      [|simpl; rewrite Hfs0; reflexivity].
    destruct (write_fault env VEC_FILE (fs w VEC_FILE) _); [reflexivity|].
    destruct (Pipeline.projectTo3D env _) as [proj|e]; [|reflexivity].
    destruct (write_fault env PROJ_FILE (fs w PROJ_FILE) _); reflexivity. }
  split.
  { intros e He p. rewrite He. simpl. rewrite Hfs0. reflexivity. }
  split.
  { intros embed e He Hembed p. rewrite He, Hembed. simpl.
    rewrite Hfs0. reflexivity. }
  split.
  { intros Hhist p. rewrite Hhist.
    destruct (Pipeline.embedder_of env w) as [embed|e];
      [|simpl; rewrite Hfs0; reflexivity].
    destruct (embed S) as [v|e]; simpl; rewrite Hfs0; reflexivity. }
  intros embed v lst He Hembed Hhist. rewrite He, Hembed, Hhist. split.
  - intros left_behind Hw. rewrite Hw. reflexivity.
  - intros e Hw Hproj. rewrite Hw, Hproj. split; reflexivity.
Qed.

(** The embedding model fails to load: the proposal is still answered with
    the accepted sentence, and the task leaves the files as it found them. *)
Lemma background_failures_are_contained_witness :
  fst (express (Pipeline.post_webhook_update Demo.env_no_model
                  (Demo.propose "the rabbit hole goes"))
         (Demo.world_with (Some (js "the rabbit hole"))))
  = SendText (js "the rabbit hole goes") /\
  forall p,
    fs (snd (Pipeline.background_task Demo.env_no_model
               (Demo.world_with (Some (js "the rabbit hole"))))) p
    = fs (Demo.world_with (Some (js "the rabbit hole"))) p.
Proof.
  destruct (background_failures_are_contained Demo.env_no_model
              (Demo.world_with (Some (js "the rabbit hole"))))
    as [_ [Hanswer [_ [Hload _]]]].
  split.
  - apply (Hanswer (Demo.propose "the rabbit hole goes")).
    + reflexivity.
    + vm_compute; discriminate.
    + reflexivity.
  - apply (Hload (LibraryError 1)). reflexivity.
Defined.

(** * Further properties of the code *)

(** ** Trimming and counting *)

Module WordFacts.
Import Vocabulary.

Lemma trimStart_head (s : jsstring) (c : char16) (r : jsstring) :
  trimStart s = c :: r -> isWhiteSpace c = false.
Proof.
  induction s as [|x s IH]; simpl; [discriminate|].
  destruct (isWhiteSpace x) eqn:Hx; [exact IH|].
  intros H; injection H as -> _. exact Hx.
Qed.

Lemma trimStart_blank (s : jsstring) :
  trimStart s = [] <-> forallb isWhiteSpace s = true.
Proof.
  induction s as [|x s IH]; simpl; [tauto|].
  destruct (isWhiteSpace x); simpl; [exact IH|]. split; discriminate.
Qed.

Lemma trim_blank (s : jsstring) :
  trim s = [] <-> forallb isWhiteSpace s = true.
Proof.
  unfold trim, trimEnd. split.
  - intros H. apply (f_equal (@rev _)) in H. rewrite rev_involutive in H.
    simpl in H. apply trimStart_blank in H.
    destruct (trimStart s) as [|c r] eqn:E; [apply trimStart_blank, E|].
    apply trimStart_head in E. rewrite forallb_forall in H.
    rewrite (H c) in E; [discriminate|]. apply in_rev. rewrite rev_involutive.
    left; reflexivity.
  - intros H. apply trimStart_blank in H. rewrite H. reflexivity.
Qed.

Lemma words_after_blank (s : jsstring) :
  words_after true s = 0 <-> forallb isWhiteSpace s = true.
Proof.
  induction s as [|x s IH]; simpl; [tauto|].
  destruct (isWhiteSpace x); simpl; [exact IH|]. split; discriminate.
Qed.

(** A trimmed text is empty or starts and ends with a code unit that is not
    whitespace. *)
Lemma trim_head (s : jsstring) (c : char16) (r : jsstring) :
  trim s = c :: r -> isWhiteSpace c = false.
Proof.
  intros H. destruct (trimEnd_split (trimStart s)) as [tail [E _]].
  fold (trim s) in E. rewrite H in E. simpl in E.
  exact (trimStart_head s c _ E).
Qed.

Lemma trim_last (s : jsstring) (body : jsstring) (c : char16) :
  trim s = body ++ [c] -> isWhiteSpace c = false.
Proof.
  unfold trim, trimEnd. intros H.
  apply (f_equal (@rev _)) in H. rewrite rev_involutive, rev_app_distr in H.
  simpl in H. exact (trimStart_head _ c _ H).
Qed.

Lemma trim_fixed (c : char16) (r body : jsstring) (l : char16) :
  isWhiteSpace c = false -> isWhiteSpace l = false ->
  c :: r = body ++ [l] -> trim (c :: r) = c :: r.
Proof.
  intros Hc Hl E. unfold trim. simpl trimStart. rewrite Hc.
  unfold trimEnd. rewrite E, rev_app_distr. simpl. rewrite Hl.
  simpl. rewrite rev_involutive. reflexivity.
Qed.

Lemma trim_length_fixed (s : jsstring) :
  length (trim s) = length s -> trim s = s.
Proof.
  intros H. destruct (trimStart_split s) as [pre [E1 _]].
  destruct (trimEnd_split (trimStart s)) as [tail [E2 _]].
  fold (trim s) in E2.
  assert (Hlen : length s = length pre + (length (trim s) + length tail)).
  { rewrite E1 at 1. rewrite length_app. rewrite E2 at 1.
    rewrite length_app. reflexivity. }
  assert (pre = []) by (destruct pre; [reflexivity | simpl in Hlen; lia]).
  assert (tail = []) by (destruct tail; [reflexivity | simpl in Hlen; lia]).
  subst. rewrite app_nil_r in E2. simpl in E1. congruence.
Qed.

Lemma same_class_length (s t : jsstring) :
  same_class s t -> length s = length t.
Proof. apply Forall2_length. Qed.

Lemma same_class_trimStart (s t : jsstring) :
  same_class s t -> same_class (trimStart s) (trimStart t).
Proof.
  induction 1 as [|x y s t [Hws Ht] Hst IH]; simpl; [constructor|].
  rewrite <- Hws. destruct (isWhiteSpace x) eqn:Hx; [exact IH|].
  constructor; [|exact Hst]. split; [congruence | exact Ht].
Qed.

Lemma same_class_rev (s t : jsstring) :
  same_class s t -> same_class (rev s) (rev t).
Proof.
  induction 1 as [|x y s t Hxy Hst IH]; simpl; [constructor|].
  apply Forall2_app; [exact IH|]. constructor; [exact Hxy | constructor].
Qed.

Lemma same_class_trim (s t : jsstring) :
  same_class s t -> same_class (trim s) (trim t).
Proof.
  intros H. unfold trim, trimEnd.
  apply same_class_rev, same_class_trimStart, same_class_rev,
    same_class_trimStart, H.
Qed.

Lemma same_class_words (s t : jsstring) :
  same_class s t -> forall b, words_after b s = words_after b t.
Proof.
  induction 1 as [|x y s t [Hws _] Hst IH]; intros b; simpl; [reflexivity|].
  rewrite <- Hws. destruct (isWhiteSpace x); rewrite IH; reflexivity.
Qed.

Lemma same_class_terminal (s t : jsstring) :
  same_class s t -> test_terminal s = test_terminal t.
Proof.
  induction 1 as [|x y s t [_ Hterm] Hst IH]; simpl; [reflexivity|].
  destruct Hst as [|x' y' s' t' Hxy' Hst']; [exact Hterm | exact IH].
Qed.

(** A trimmed text stays trimmed under a change that keeps the classes. *)
Lemma same_class_trimmed (s t : jsstring) :
  same_class s t -> trim s = s -> trim t = t.
Proof.
  intros H Hs. apply trim_length_fixed.
  rewrite <- (same_class_length _ _ (same_class_trim _ _ H)), Hs.
  apply same_class_length, H.
Qed.

Lemma trim_trim (s : jsstring) : trim (trim s) = trim s.
Proof.
  destruct (trim s) as [|c r] eqn:E; [reflexivity|].
  destruct (exists_last (l := c :: r)) as [body [l El]]; [discriminate|].
  apply (trim_fixed c r body l); [| |exact El].
  - exact (trim_head s c r E).
  - rewrite El in E. exact (trim_last s body l E).
Qed.

Lemma words_after_space_word (w : jsstring) :
  forall b s, words_after b (s ++ 32%N :: w) = words_after b s + words_after true w.
Proof.
  intros b s; revert b; induction s as [|c s IH]; intros b; simpl.
  - reflexivity.
  - destruct (isWhiteSpace c); rewrite IH; lia.
Qed.

Lemma words_after_one_word (w : jsstring) :
  no_whitespace w -> w <> [] -> words_after true w = 1.
Proof.
  intros Hw Hne. destruct w as [|c r]; [congruence|].
  inversion Hw as [|? ? Hc Hr]; subst. simpl. rewrite Hc.
  assert (Hrest : words_after false r = 0).
  { clear - Hr. induction Hr as [|x r Hx Hr IH]; simpl; [reflexivity|].
    rewrite Hx. exact IH. }
  rewrite Hrest. reflexivity.
Qed.

End WordFacts.

(** ** What writing a text as UTF-8 keeps *)

Module EncodingFacts.
Import Vocabulary WordFacts.

Lemma surrogate_class (c : char16) :
  isHigh c = true \/ isLow c = true ->
  isWhiteSpace c = false /\ isTerminal c = false.
Proof.
  unfold isHigh, isLow, isWhiteSpace, isTerminal.
  intros [H | H]; apply andb_true_iff in H as [Hlo Hhi];
    apply N.leb_le in Hlo; apply N.leb_le in Hhi;
    repeat match goal with
           | |- context [(c =? ?k)%N] =>
               destruct (N.eqb_spec c k); [lia|]
           | |- context [(?k <=? c)%N] =>
               destruct (N.leb_spec k c)
           | |- context [(c <=? ?k)%N] =>
               destruct (N.leb_spec c k); [lia|]
           end; split; reflexivity.
Qed.

Lemma replacement_class :
  isWhiteSpace 65533%N = false /\ isTerminal 65533%N = false.
Proof. split; reflexivity. Qed.

Lemma utf8_same_class (s : jsstring) :
  forall b, same_class s (utf8_text b s).
Proof.
  induction s as [|c rest IH]; intros b; simpl; [constructor|].
  destruct (isHigh c) eqn:Hh.
  - destruct (surrogate_class c (or_introl Hh)) as [Hws Ht].
    destruct rest as [|d rest'].
    + constructor; [|constructor]. rewrite Hws, Ht. split; reflexivity.
    + destruct (isLow d).
      * constructor; [split; reflexivity | apply IH].
      * constructor; [|apply IH]. rewrite Hws, Ht. split; reflexivity.
  - destruct (isLow c) eqn:Hl.
    + destruct (surrogate_class c (or_intror Hl)) as [Hws Ht].
      constructor; [|apply IH].
      destruct b; [split; reflexivity|]. rewrite Hws, Ht. split; reflexivity.
    + constructor; [split; reflexivity | apply IH].
Qed.

Lemma utf8_no_surrogates (s : jsstring) :
  no_surrogates s -> forall b, utf8_text b s = s.
Proof.
  induction 1 as [|c rest [Hh Hl] Hrest IH]; intros b; simpl; [reflexivity|].
  rewrite Hh, Hl, IH. reflexivity.
Qed.

(** A trimmed text, written and read back, is still trimmed. *)
Lemma utf8_trimmed (s : jsstring) :
  trim (utf8_text false (trim s)) = utf8_text false (trim s).
Proof.
  apply (same_class_trimmed (trim s)); [apply utf8_same_class | apply trim_trim].
Qed.

End EncodingFacts.

(** ** The two updates, read backwards from an accepted answer *)

Module AcceptFacts.
Import Vocabulary WordFacts EncodingFacts.

Lemma ledger_accepted_inv (env : Env) (w w' : World) (req : Request)
  (text : jsstring) :
  express (Ledger.post_webhook_update env req) w = (SendText text, w') ->
  unauthorized env req = false /\
  text = trim (sentence_of req) /\
  text <> [] /\
  (current_sentence env w = [] \/
   word_count text = word_count (current_sentence env w) + 1) /\
  test_terminal text = false /\
  w' = with_fs w (set_file (fs w) DATA_FILE (Some (utf8_text false text))).
Proof.
  intros H. destruct (unauthorized env req) eqn:Hauth.
  { unfold express, Ledger.post_webhook_update in H. rewrite Hauth in H.
    discriminate. }
  rewrite (ledger_update_cases env w req Hauth) in H. cbv zeta in H.
  unfold incoming_of in H.
  destruct (truthy (trim (sentence_of req))) eqn:Hne; [|discriminate].
  simpl negb in H. cbv iota in H.
  destruct (truthy (current_sentence env w)) eqn:Hprev; simpl andb in H.
  - destruct (count (trim (sentence_of req)) =? count (current_sentence env w) + 1)%nat
      eqn:Hcount; [|discriminate].
    simpl negb in H. cbv iota in H.
    destruct (test_terminal (trim (sentence_of req))) eqn:Hterm; [discriminate|].
    destruct (write_fault env DATA_FILE (fs w DATA_FILE) (trim (sentence_of req)));
      [discriminate|].
    injection H as <- <-. apply Nat.eqb_eq in Hcount.
    rewrite !count_word_count in Hcount. apply truthy_iff in Hne.
    repeat split; auto.
  - destruct (test_terminal (trim (sentence_of req))) eqn:Hterm; [discriminate|].
    destruct (write_fault env DATA_FILE (fs w DATA_FILE) (trim (sentence_of req)));
      [discriminate|].
    injection H as <- <-. apply truthy_false_iff in Hprev.
    apply truthy_iff in Hne. repeat split; auto.
Qed.

Lemma pipeline_accepted_inv (env : Env) (w w' : World) (req : Request)
  (text : jsstring) :
  express (Pipeline.post_webhook_update env req) w = (SendText text, w') ->
  unauthorized env req = false /\
  text = trim (sentence_of req) /\
  text <> [] /\
  w' = snd (Pipeline.background_task env
              (with_fs w (set_file (fs w) DATA_FILE
                                   (Some (utf8_text false text))))).
Proof.
  intros H. destruct (unauthorized env req) eqn:Hauth.
  { unfold express, Pipeline.post_webhook_update in H. rewrite Hauth in H.
    discriminate. }
  rewrite (pipeline_update_cases env w req Hauth) in H. cbv zeta in H.
  unfold incoming_of in H.
  destruct (truthy (trim (sentence_of req))) eqn:Hne; [|discriminate].
  simpl negb in H. cbv iota in H.
  destruct (write_fault env DATA_FILE (fs w DATA_FILE) (trim (sentence_of req)));
    [discriminate|].
  injection H as <- <-. apply truthy_iff in Hne. repeat split; auto.
Qed.

(** The detached task leaves the sentence file alone. *)
Lemma task_keeps_sentence (env : Env) (w : World) :
  fs (snd (Pipeline.background_task env w)) DATA_FILE = fs w DATA_FILE.
Proof.
  destruct (getEmbedder_cases env w) as [_ Hfs0].
  rewrite background_task_state, task_body_cases. cbv zeta.
  destruct (Pipeline.embedder_of env w) as [embed|e];
    [|simpl; rewrite Hfs0; reflexivity].
  destruct (embed (current_sentence env w)) as [v|e];
    [|simpl; rewrite Hfs0; reflexivity].
  destruct (Pipeline.vector_history env w) as [lst|];
    [|simpl; rewrite Hfs0; reflexivity].
  destruct (write_fault env VEC_FILE (fs w VEC_FILE) _); [reflexivity|].
  destruct (Pipeline.projectTo3D env _) as [proj|e]; [|reflexivity].
  destruct (write_fault env PROJ_FILE (fs w PROJ_FILE) _); reflexivity.
Qed.

(** The sentence read from a state whose sentence file holds [text]. *)
Lemma current_sentence_of_file (env : Env) (w : World) (text : jsstring) :
  fs w DATA_FILE = Some text -> read_fault env DATA_FILE = false ->
  current_sentence env w = trim text.
Proof.
  intros Hfile Hread. rewrite current_sentence_cases, Hfile, Hread. reflexivity.
Qed.

End AcceptFacts.

(** ** The sentence ledger, further *)

Module LedgerMoreFacts.
Import Vocabulary WordFacts EncodingFacts AcceptFacts.

Lemma current_sentence_trimmed (env : Env) (w : World) :
  trim (current_sentence env w) = current_sentence env w.
Proof.
  rewrite current_sentence_cases.
  destruct (fs w DATA_FILE) as [text|]; [|reflexivity].
  destruct (read_fault env DATA_FILE); [reflexivity | apply trim_trim].
Qed.

Lemma test_terminal_app (s t : jsstring) :
  t <> [] -> test_terminal (s ++ t) = test_terminal t.
Proof.
  intros Ht. induction s as [|c s IH]; [reflexivity|].
  simpl. destruct (s ++ t) eqn:E; [|exact IH].
  destruct s; [simpl in E; congruence | discriminate].
Qed.

Lemma no_whitespace_last (word : jsstring) :
  word <> [] -> no_whitespace word ->
  exists body l, word = body ++ [l] /\ isWhiteSpace l = false.
Proof.
  intros Hne Hw. destruct (exists_last Hne) as [body [l E]].
  exists body, l. split; [exact E|].
  unfold no_whitespace in Hw. rewrite Forall_forall in Hw. apply Hw.
  rewrite E. apply in_or_app. right. left. reflexivity.
Qed.

(** After an accepted update of either server, the next read of the
    sentence gives the answered text as UTF-8 keeps it. *)
Lemma accepted_read_core (env env' : Env) (w w' : World)
  (req : Request) (text : jsstring) :
  read_fault env' DATA_FILE = false ->
  express (Ledger.post_webhook_update env req) w = (SendText text, w') \/
  express (Pipeline.post_webhook_update env req) w = (SendText text, w') ->
  current_sentence env' w' = utf8_text false text.
Proof.
  intros Hread H.
  assert (Hfile : fs w' DATA_FILE = Some (utf8_text false text) /\
                  text = trim (sentence_of req)).
  { destruct H as [H | H].
    - destruct (ledger_accepted_inv env w w' req text H)
        as (_ & Htext & _ & _ & _ & ->).
      split; [apply set_file_same | exact Htext].
    - destruct (pipeline_accepted_inv env w w' req text H)
        as (_ & Htext & _ & ->).
      split; [|exact Htext].
      rewrite task_keeps_sentence. apply set_file_same. }
  destruct Hfile as [Hfile Htext].
  rewrite (current_sentence_of_file env' w' _ Hfile Hread).
  rewrite Htext. apply utf8_trimmed.
Qed.

End LedgerMoreFacts.

Import Vocabulary WordFacts EncodingFacts AcceptFacts LedgerMoreFacts.

(** X1.  The handler's [count] is the number of maximal runs of code units
    that are not whitespace: whitespace around the text and the length of
    the gaps between words do not matter. *)
Theorem count_is_number_of_words (s : jsstring) :
  count s = word_count s /\ count (trim s) = count s.
Proof.
  split; [apply count_word_count|].
  rewrite !count_word_count. apply word_count_trim.
Qed.

(** X2.  [count] is zero exactly on the texts that trim to the empty string,
    that is, on the texts made of whitespace only: a candidate that passes
    the empty check has at least one word. *)
Theorem count_zero_iff_blank (s : jsstring) :
  (count s = 0 <-> trim s = []) /\
  (trim s = [] <-> forallb isWhiteSpace s = true).
Proof.
  split; [|apply trim_blank].
  rewrite count_word_count, trim_blank. apply words_after_blank.
Qed.

(** X3.  Over a non-empty current sentence, the candidate made of the
    current sentence, one space and one word (not empty, without whitespace,
    not ending in a terminal mark) is accepted and answered verbatim. *)
Theorem appending_one_word_is_accepted (env : Env) (w : World)
  (req : Request) (word : jsstring) :
  unauthorized env req = false ->
  current_sentence env w <> [] ->
  word <> [] -> no_whitespace word -> ~ ends_in_terminal word ->
  sentence_of req = current_sentence env w ++ 32%N :: word ->
  write_fault env DATA_FILE (fs w DATA_FILE)
    (current_sentence env w ++ 32%N :: word) = None ->
  fst (express (Ledger.post_webhook_update env req) w)
  = SendText (current_sentence env w ++ 32%N :: word).
Proof.
  intros Hauth Hprev Hne Hws Hterm Hreq Hwrite.
  assert (Htrim : trim (current_sentence env w ++ 32%N :: word)
                  = current_sentence env w ++ 32%N :: word).
  { pose proof (current_sentence_trimmed env w) as Hfix.
    destruct (current_sentence env w) as [|c r] eqn:E; [congruence|].
    destruct (no_whitespace_last word Hne Hws) as [body [l [-> Hl]]].
    apply (trim_fixed c _ (c :: r ++ 32%N :: body) l).
    - exact (trim_head _ c r Hfix).
    - exact Hl.
    - simpl. rewrite <- app_assoc. reflexivity. }
  rewrite (ledger_update_cases env w req Hauth). cbv zeta.
  unfold incoming_of. rewrite Hreq, Htrim.
  assert (Htruthy : truthy (current_sentence env w ++ 32%N :: word) = true).
  { apply truthy_iff. destruct (current_sentence env w); discriminate. }
  rewrite Htruthy. simpl negb. cbv iota.
  rewrite !count_word_count. unfold word_count.
  rewrite words_after_space_word, (words_after_one_word word Hws Hne).
  rewrite Nat.eqb_refl, andb_false_r.
  rewrite (test_terminal_app (current_sentence env w) (32%N :: word))
    by discriminate.
  assert (Hpunct : test_terminal (32%N :: word) = false).
  { apply test_terminal_false_iff in Hterm.
    destruct word as [|c r]; [congruence | exact Hterm]. }
  rewrite Hpunct, Hwrite. reflexivity.
Qed.

Lemma appending_one_word_is_accepted_witness :
  fst (express (Ledger.post_webhook_update Demo.env
                  (Demo.propose "the rabbit hole goes"))
         (Demo.world_with (Some (js "  the rabbit hole "))))
  = SendText (js "the rabbit hole goes").
Proof.
  apply (appending_one_word_is_accepted Demo.env
           (Demo.world_with (Some (js "  the rabbit hole ")))
           (Demo.propose "the rabbit hole goes") (js "goes")).
  - reflexivity.
  - vm_compute; discriminate.
  - discriminate.
  - repeat constructor.
  - apply test_terminal_false_iff; reflexivity.
  - reflexivity.
  - reflexivity.
Defined.

(** X4.  The sentence an update answers with is the sentence the next read
    returns (with unpaired surrogates replaced by U+FFFD, as UTF-8 writes
    them), in both servers: the accepted candidate overwrites the current
    sentence, and the detached task does not touch it. *)
Theorem accepted_sentence_is_read_back (env env' : Env) (w w' : World)
  (req : Request) (text : jsstring) :
  read_fault env' DATA_FILE = false ->
  express (Ledger.post_webhook_update env req) w = (SendText text, w') \/
  express (Pipeline.post_webhook_update env req) w = (SendText text, w') ->
  current_sentence env' w' = utf8_text false text /\
  (no_surrogates text ->
   express (get_sentence env') w' = (SendText text, w')).
Proof.
  intros Hread H.
  pose proof (accepted_read_core env env' w w' req text Hread H) as Hcur.
  split; [exact Hcur|].
  intros Hwf. unfold express, get_sentence, bind.
  rewrite readSentence_total, Hcur, (utf8_no_surrogates text Hwf). reflexivity.
Qed.

Lemma accepted_sentence_is_read_back_witness :
  current_sentence Demo.env
    (snd (express (Pipeline.post_webhook_update Demo.env
                     (Demo.propose " down the rabbit hole "))
            (Demo.world_with None)))
  = js "down the rabbit hole".
Proof.
  refine (proj1 (accepted_sentence_is_read_back Demo.env Demo.env
                   (Demo.world_with None) _
                   (Demo.propose " down the rabbit hole ")
                   (js "down the rabbit hole") eq_refl _)).
  right. reflexivity.
Defined.

(** X5.  What an accepted update of the ledger leaves behind: a current
    sentence that is not empty, does not end in ['.'], ['!'] or ['?'], and,
    when there was a sentence before, has exactly one word more than it. *)
Theorem accepted_update_adds_one_word (env env' : Env) (w w' : World)
  (req : Request) (text : jsstring) :
  read_fault env' DATA_FILE = false ->
  express (Ledger.post_webhook_update env req) w = (SendText text, w') ->
  current_sentence env' w' <> [] /\
  ~ ends_in_terminal (current_sentence env' w') /\
  (current_sentence env w <> [] ->
   word_count (current_sentence env' w')
   = word_count (current_sentence env w) + 1).
Proof.
  intros Hread H.
  pose proof (accepted_read_core env env' w w' req text Hread (or_introl H))
    as Hcur.
  pose proof (utf8_same_class text false) as Hclass.
  destruct (ledger_accepted_inv env w w' req text H)
    as (_ & _ & Hne & Hcount & Hterm & _).
  rewrite Hcur. split; [|split].
  - intros E. apply same_class_length in Hclass. rewrite E in Hclass.
    destruct text; [congruence | discriminate].
  - apply test_terminal_false_iff.
    rewrite <- (same_class_terminal _ _ Hclass). exact Hterm.
  - intros Hprev. destruct Hcount as [Hempty | Hcount]; [congruence|].
    unfold word_count in *.
    rewrite <- (same_class_words _ _ Hclass true). exact Hcount.
Qed.

Lemma accepted_update_adds_one_word_witness :
  word_count
    (current_sentence Demo.env
       (snd (express (Ledger.post_webhook_update Demo.env
                        (Demo.propose "the rabbit hole goes"))
               (Demo.world_with (Some (js "the rabbit hole"))))))
  = word_count
      (current_sentence Demo.env (Demo.world_with (Some (js "the rabbit hole"))))
    + 1.
Proof.
  refine (proj2 (proj2 (accepted_update_adds_one_word Demo.env Demo.env
                          (Demo.world_with (Some (js "the rabbit hole"))) _
                          (Demo.propose "the rabbit hole goes")
                          (js "the rabbit hole goes") eq_refl eq_refl)) _).
  vm_compute; discriminate.
Defined.

(** X6.  The word rule looks at the previous sentence only through its
    number of words: over two non-empty current sentences with the same word
    count, a candidate gets the same verdict, and the same answer when both
    writes go through.  The candidate's words are never compared with the
    previous sentence's. *)
Theorem verdict_depends_on_word_count_only (env : Env) (w1 w2 : World)
  (req : Request) :
  unauthorized env req = false ->
  current_sentence env w1 <> [] ->
  current_sentence env w2 <> [] ->
  word_count (current_sentence env w1) = word_count (current_sentence env w2) ->
  rejection (fst (express (Ledger.post_webhook_update env req) w1))
  = rejection (fst (express (Ledger.post_webhook_update env req) w2)) /\
  (write_fault env DATA_FILE (fs w1 DATA_FILE) (trim (sentence_of req)) = None ->
   write_fault env DATA_FILE (fs w2 DATA_FILE) (trim (sentence_of req)) = None ->
   fst (express (Ledger.post_webhook_update env req) w1)
   = fst (express (Ledger.post_webhook_update env req) w2)).
Proof.
  intros Hauth H1 H2 Hcount.
  rewrite !(ledger_update_cases env _ req Hauth). cbv zeta.
  unfold incoming_of. rewrite !count_word_count, Hcount.
  apply truthy_iff in H1. apply truthy_iff in H2. rewrite H1, H2.
  destruct (negb (truthy (trim (sentence_of req)))); [split; reflexivity|].
  destruct (true && _); [split; reflexivity|].
  destruct (test_terminal (trim (sentence_of req))); [split; reflexivity|].
  split.
  - destruct (write_fault env DATA_FILE (fs w1 DATA_FILE) _),
      (write_fault env DATA_FILE (fs w2 DATA_FILE) _); reflexivity.
  - intros -> ->. reflexivity.
Qed.

(** Over ["the rabbit hole"] the four-word candidate ["we all fall down"],
    which shares no word with it, is accepted, as it is over ["a b c"]. *)
Lemma verdict_depends_on_word_count_only_witness :
  fst (express (Ledger.post_webhook_update Demo.env
                  (Demo.propose "we all fall down"))
         (Demo.world_with (Some (js "the rabbit hole"))))
  = fst (express (Ledger.post_webhook_update Demo.env
                    (Demo.propose "we all fall down"))
           (Demo.world_with (Some (js "a b c")))).
Proof.
  refine (proj2 (verdict_depends_on_word_count_only Demo.env
                   (Demo.world_with (Some (js "the rabbit hole")))
                   (Demo.world_with (Some (js "a b c")))
                   (Demo.propose "we all fall down") eq_refl _ _ eq_refl)
            eq_refl eq_refl).
  - vm_compute; discriminate.
  - vm_compute; discriminate.
Defined.

(** X7.  A request without the right secret changes nothing: the update of
    either server and the reset answer 401 and leave the files, the cached
    model and the console as they were. *)
Theorem unauthorized_changes_nothing (env : Env) (w : World) (req : Request) :
  unauthorized env req = true ->
  express (Ledger.post_webhook_update env req) w
  = (Status401 unauthorized_msg, w) /\
  express (Pipeline.post_webhook_update env req) w
  = (Status401 unauthorized_msg, w) /\
  express (Pipeline.post_reset env req) w
  = (Status401 unauthorized_msg, w).
Proof.
  intros Hauth.
  unfold express, Ledger.post_webhook_update, Pipeline.post_webhook_update,
    Pipeline.post_reset.
  rewrite Hauth. repeat split; reflexivity.
Qed.

Lemma unauthorized_changes_nothing_witness :
  express (Pipeline.post_reset Demo.env
             (mkRequest (Some (js "hunter3")) NoBody))
    Scenario.populated
  = (Status401 unauthorized_msg, Scenario.populated).
Proof.
  refine (proj2 (proj2 (unauthorized_changes_nothing Demo.env Scenario.populated
                          (mkRequest (Some (js "hunter3")) NoBody) _))).
  reflexivity.
Defined.

(** ** The detached task, further *)

Module TaskMoreFacts.
Import Vocabulary.

Lemma getEmbedder_state (env : Env) (w : World) :
  embedderPromise (snd (Pipeline.getEmbedder env w))
  = Some (Pipeline.embedder_of env w) /\
  console (snd (Pipeline.getEmbedder env w)) = console w.
Proof.
  unfold Pipeline.getEmbedder, Pipeline.embedder_of.
  destruct (embedderPromise w) eqn:E; simpl; auto.
Qed.

(** The [try] block keeps the console and leaves the promise made. *)
Lemma task_body_state (env : Env) (w : World) :
  embedderPromise (snd (Pipeline.task_body env w))
  = Some (Pipeline.embedder_of env w) /\
  console (snd (Pipeline.task_body env w)) = console w.
Proof.
  destruct (getEmbedder_state env w) as [Hp Hc].
  rewrite task_body_cases. cbv zeta.
  destruct (Pipeline.embedder_of env w) as [embed|e]; [|simpl; auto].
  destruct (embed (current_sentence env w)) as [v|e]; [|simpl; auto].
  destruct (Pipeline.vector_history env w) as [lst|]; [|simpl; auto].
  destruct (write_fault env VEC_FILE (fs w VEC_FILE) _); [simpl; auto|].
  destruct (Pipeline.projectTo3D env _) as [proj|e]; [|simpl; auto].
  destruct (write_fault env PROJ_FILE (fs w PROJ_FILE) _); simpl; auto.
Qed.

Lemma background_task_rest (env : Env) (w : World) :
  embedderPromise (snd (Pipeline.background_task env w))
  = embedderPromise (snd (Pipeline.task_body env w)) /\
  console (snd (Pipeline.background_task env w))
  = console (snd (Pipeline.task_body env w))
    ++ logged (fst (Pipeline.task_body env w)).
Proof.
  unfold Pipeline.background_task, try_catch, Pipeline.console_error.
  destruct (Pipeline.task_body env w) as [[[]|e] w']; simpl;
    rewrite ?app_nil_r; auto.
Qed.

(** A failure before the vector save leaves the files as they were. *)
Lemma task_body_early_failure (env : Env) (w : World) (e : error) :
  Pipeline.embedder_of env w = Throw e ->
  fst (Pipeline.task_body env w) = Throw e /\
  forall p, fs (snd (Pipeline.task_body env w)) p = fs w p.
Proof.
  intros He. destruct (getEmbedder_cases env w) as [_ Hfs0].
  rewrite task_body_cases. cbv zeta. rewrite He. simpl.
  split; [reflexivity|]. intros p. rewrite Hfs0. reflexivity.
Qed.

(** The run in which every step goes through. *)
Lemma task_body_success (env : Env) (w : World) (embed : Embedder)
  (v : list Number) (lst : list VectorRecord) (proj : list ProjectionRecord) :
  Pipeline.embedder_of env w = Ok embed ->
  embed (current_sentence env w) = Ok v ->
  Pipeline.vector_history env w = Rows lst ->
  write_fault env VEC_FILE (fs w VEC_FILE)
    (JSON_stringify_vectors env (Pipeline.push_row lst (now env) v)) = None ->
  Pipeline.projectTo3D env (Pipeline.push_row lst (now env) v) = Ok proj ->
  write_fault env PROJ_FILE (fs w PROJ_FILE) (JSON_stringify_points env proj)
  = None ->
  fst (Pipeline.task_body env w) = Ok tt /\
  fs (snd (Pipeline.task_body env w)) VEC_FILE
  = Some (utf8_text false
            (JSON_stringify_vectors env (Pipeline.push_row lst (now env) v))) /\
  fs (snd (Pipeline.task_body env w)) PROJ_FILE
  = Some (utf8_text false (JSON_stringify_points env proj)).
Proof.
  intros He Hv Hl Hw1 Hp Hw2.
  rewrite task_body_cases. cbv zeta. rewrite He, Hv, Hl, Hw1, Hp, Hw2.
  repeat split; reflexivity.
Qed.

(** Reading back a file that holds a text the codec parses. *)
Lemma loadJson_of_file {A} (env : Env) (parse : jsstring -> outcome A)
  (file : path) (fallback v : A) (w : World) (text : jsstring) :
  fs w file = Some text -> read_fault env file = false ->
  parse text = Ok v ->
  Pipeline.loadJson env parse file fallback w = (Ok v, w).
Proof.
  intros Hfile Hread Hparse. rewrite loadJson_cases. unfold readFileSync.
  rewrite Hfile, Hread, Hparse. reflexivity.
Qed.

End TaskMoreFacts.

Import TaskMoreFacts.

(** X8.  The embedding model is loaded at most once: what the first attempt
    gave, also a failure, is what every later task gets, whatever the model
    would do if it were loaded again; after a failed load every later task
    fails at the same point and leaves the files as they are. *)
Theorem model_load_is_kept (env env' : Env) (w : World) :
  embedderPromise (snd (Pipeline.background_task env w))
  = Some (Pipeline.embedder_of env w) /\
  Pipeline.embedder_of env' (snd (Pipeline.background_task env w))
  = Pipeline.embedder_of env w /\
  (forall e, Pipeline.embedder_of env w = Throw e ->
     forall p,
       fs (snd (Pipeline.background_task env'
                  (snd (Pipeline.background_task env w)))) p
       = fs (snd (Pipeline.background_task env w)) p).
Proof.
  destruct (background_task_rest env w) as [Hp _].
  destruct (task_body_state env w) as [Hp' _].
  assert (Hkept : embedderPromise (snd (Pipeline.background_task env w))
                  = Some (Pipeline.embedder_of env w)) by congruence.
  assert (Hnext : Pipeline.embedder_of env' (snd (Pipeline.background_task env w))
                  = Pipeline.embedder_of env w).
  { unfold Pipeline.embedder_of at 1. rewrite Hkept. reflexivity. }
  repeat split; auto.
  intros e He p. rewrite background_task_state.
  apply (task_body_early_failure env' _ e). congruence.
Qed.

(** A failed load in one deployment makes the task of a working deployment
    fail on the same state. *)
Lemma model_load_is_kept_witness :
  Pipeline.embedder_of Demo.env
    (snd (Pipeline.background_task Demo.env_no_model
            (Demo.world_with (Some (js "the rabbit hole")))))
  = Throw (LibraryError 1) /\
  fs (snd (Pipeline.background_task Demo.env
             (snd (Pipeline.background_task Demo.env_no_model
                     (Demo.world_with (Some (js "the rabbit hole"))))))) VEC_FILE
  = fs (snd (Pipeline.background_task Demo.env_no_model
               (Demo.world_with (Some (js "the rabbit hole"))))) VEC_FILE.
Proof.
  destruct (model_load_is_kept Demo.env_no_model Demo.env
              (Demo.world_with (Some (js "the rabbit hole"))))
    as (_ & Hnext & Hfiles).
  split; [exact Hnext|].
  apply (Hfiles (LibraryError 1)). reflexivity.
Defined.

(** X9.  When every step of the detached task goes through, the vector file
    holds the history with the new row appended, the projection file holds
    the projection of that history, one point per row, and nothing is
    printed.  When the codec reads those texts back, the vector history
    reads as the appended history and [GET /vectors3d] answers with the new
    projection. *)
Theorem successful_task_saves_both (env env' : Env) (w : World)
  (embed : Embedder) (v : list Number) (lst : list VectorRecord)
  (proj : list ProjectionRecord) :
  Pipeline.embedder_of env w = Ok embed ->
  embed (current_sentence env w) = Ok v ->
  Pipeline.vector_history env w = Rows lst ->
  write_fault env VEC_FILE (fs w VEC_FILE)
    (JSON_stringify_vectors env (Pipeline.push_row lst (now env) v)) = None ->
  Pipeline.projectTo3D env (Pipeline.push_row lst (now env) v) = Ok proj ->
  write_fault env PROJ_FILE (fs w PROJ_FILE) (JSON_stringify_points env proj)
  = None ->
  fs (snd (Pipeline.background_task env w)) VEC_FILE
  = Some (utf8_text false
            (JSON_stringify_vectors env (Pipeline.push_row lst (now env) v))) /\
  fs (snd (Pipeline.background_task env w)) PROJ_FILE
  = Some (utf8_text false (JSON_stringify_points env proj)) /\
  length proj = length lst + 1 /\
  console (snd (Pipeline.background_task env w)) = console w /\
  (read_fault env' VEC_FILE = false ->
   JSON_parse_vectors env'
     (utf8_text false
        (JSON_stringify_vectors env (Pipeline.push_row lst (now env) v)))
   = Ok (Rows (Pipeline.push_row lst (now env) v)) ->
   Pipeline.vector_history env' (snd (Pipeline.background_task env w))
   = Rows (Pipeline.push_row lst (now env) v)) /\
  (read_fault env' PROJ_FILE = false ->
   JSON_parse_points env' (utf8_text false (JSON_stringify_points env proj))
   = Ok (Rows proj) ->
   express (Pipeline.get_vectors3d env') (snd (Pipeline.background_task env w))
   = (SendPoints (Rows proj), snd (Pipeline.background_task env w))).
Proof.
  intros He Hv Hl Hw1 Hp Hw2.
  destruct (task_body_success env w embed v lst proj He Hv Hl Hw1 Hp Hw2)
    as (Hok & Hvec & Hproj).
  destruct (background_task_rest env w) as [_ Hcons].
  destruct (task_body_state env w) as [_ Hcons'].
  rewrite <- !background_task_state in Hvec, Hproj.
  split; [exact Hvec|]. split; [exact Hproj|]. split; [|split; [|split]].
  - destruct (projectTo3D_inv env _ proj Hp)
      as [[Hnil _] | (pca & rows & _ & _ & Hrows)].
    + unfold Pipeline.push_row in Hnil. destruct lst; discriminate.
    + destruct (map_rows_spec rows _ 0 proj Hrows) as [Hs _].
      rewrite <- (length_map pstep proj), Hs, length_map.
      unfold Pipeline.push_row. rewrite length_app. reflexivity.
  - rewrite Hcons, Hcons', Hok. apply app_nil_r.
  - intros Hread Hparse. unfold Pipeline.vector_history.
    rewrite (loadJson_of_file env' _ VEC_FILE _ _ _ _ Hvec Hread Hparse).
    reflexivity.
  - intros Hread Hparse. unfold express, Pipeline.get_vectors3d, bind.
    rewrite (loadJson_of_file env' _ PROJ_FILE _ _ _ _ Hproj Hread Hparse).
    reflexivity.
Qed.

(** The first update of a fresh deployment: the history reads back as its
    one row, with step 1. *)
Lemma successful_task_saves_both_witness :
  Pipeline.vector_history Scenario.env
    (snd (Pipeline.background_task Scenario.env
            (Demo.world_with (Some (js "down")))))
  = Rows [Scenario.first_row].
Proof.
  refine (proj1 (proj2 (proj2 (proj2 (proj2
            (successful_task_saves_both Scenario.env Scenario.env
               (Demo.world_with (Some (js "down"))) Demo.embedder
               [Demo.half; Demo.minus_quarter] [] [Scenario.first_point]
               eq_refl eq_refl eq_refl eq_refl eq_refl eq_refl)))))
            eq_refl eq_refl).
Defined.

(** X10.  The detached task prints exactly the error its [try] block ended
    with, once, after what was printed before, and prints nothing when the
    block went through; a model that fails to load and a PCA that throws are
    two such errors. *)
Theorem task_failure_is_logged_once (env : Env) (w : World) :
  console (snd (Pipeline.background_task env w))
  = console w ++ logged (fst (Pipeline.task_body env w)) /\
  (forall e, Pipeline.embedder_of env w = Throw e ->
     console (snd (Pipeline.background_task env w)) = console w ++ [e]) /\
  (forall embed v lst e,
     Pipeline.embedder_of env w = Ok embed ->
     embed (current_sentence env w) = Ok v ->
     Pipeline.vector_history env w = Rows lst ->
     write_fault env VEC_FILE (fs w VEC_FILE)
       (JSON_stringify_vectors env (Pipeline.push_row lst (now env) v)) = None ->
     Pipeline.projectTo3D env (Pipeline.push_row lst (now env) v) = Throw e ->
     console (snd (Pipeline.background_task env w)) = console w ++ [e]).
Proof.
  destruct (background_task_rest env w) as [_ Hcons].
  destruct (task_body_state env w) as [_ Hcons'].
  rewrite Hcons' in Hcons. split; [exact Hcons|]. split.
  - intros e He. rewrite Hcons.
    destruct (task_body_early_failure env w e He) as [-> _]. reflexivity.
  - intros embed v lst e He Hv Hl Hw Hp. rewrite Hcons.
    rewrite task_body_cases. cbv zeta. rewrite He, Hv, Hl, Hw, Hp. reflexivity.
Qed.

Lemma task_failure_is_logged_once_witness :
  console (snd (Pipeline.background_task Demo.env_no_model
                  (Demo.world_with (Some (js "the rabbit hole")))))
  = [LibraryError 1] /\
  console (snd (Pipeline.background_task Scenario.env_no_pca
                  (Demo.world_with (Some (js "the rabbit hole")))))
  = [LibraryError 2].
Proof.
  split.
  - refine (proj1 (proj2 (task_failure_is_logged_once Demo.env_no_model
                            (Demo.world_with (Some (js "the rabbit hole")))))
              (LibraryError 1) _).
    reflexivity.
  - refine (proj2 (proj2 (task_failure_is_logged_once Scenario.env_no_pca
                            (Demo.world_with (Some (js "the rabbit hole")))))
              Demo.embedder [Demo.half; Demo.minus_quarter] [] (LibraryError 2)
              eq_refl eq_refl eq_refl eq_refl eq_refl).
Defined.

(** X11.  The detached task keeps the history serialized: from a vector file
    that reads as a history with steps [1..n], a task that goes through
    leaves a file that reads as a history with steps [1..n+1], the new row
    last with step [n+1]. *)
Theorem task_keeps_history_serialized (env env' : Env) (w : World)
  (embed : Embedder) (v : list Number) (lst : list VectorRecord) :
  Pipeline.embedder_of env w = Ok embed ->
  embed (current_sentence env w) = Ok v ->
  Pipeline.vector_history env w = Rows lst ->
  Pipeline.serialized lst ->
  write_fault env VEC_FILE (fs w VEC_FILE)
    (JSON_stringify_vectors env (Pipeline.push_row lst (now env) v)) = None ->
  read_fault env' VEC_FILE = false ->
  JSON_parse_vectors env'
    (utf8_text false
       (JSON_stringify_vectors env (Pipeline.push_row lst (now env) v)))
  = Ok (Rows (Pipeline.push_row lst (now env) v)) ->
  exists lst',
    Pipeline.vector_history env' (snd (Pipeline.background_task env w))
    = Rows lst' /\
    Pipeline.serialized lst' /\
    lst' = lst ++ [mkVectorRecord (Z.of_nat (length lst) + 1) (now env) v] /\
    map step lst' = map (fun k => (Z.of_nat k + 1)%Z) (seq 0 (length lst + 1)).
Proof.
  intros He Hv Hl Hser Hw Hread Hparse.
  exists (Pipeline.push_row lst (now env) v).
  assert (Hvec : fs (snd (Pipeline.background_task env w)) VEC_FILE
                 = Some (utf8_text false
                           (JSON_stringify_vectors env
                              (Pipeline.push_row lst (now env) v)))).
  { rewrite background_task_state, task_body_cases. cbv zeta.
    rewrite He, Hv, Hl, Hw.
    destruct (Pipeline.projectTo3D env _) as [proj|e]; [|reflexivity].
    destruct (write_fault env PROJ_FILE (fs w PROJ_FILE) _); reflexivity. }
  pose proof (Pipeline.serialized_push lst (now env) v Hser) as Hser'.
  destruct (serialized_steps lst Hser) as [Hnext _].
  destruct (serialized_steps _ Hser') as [_ Hsteps'].
  split; [|split; [exact Hser'|split]].
  - unfold Pipeline.vector_history.
    rewrite (loadJson_of_file env' _ VEC_FILE _ _ _ _ Hvec Hread Hparse).
    reflexivity.
  - unfold Pipeline.push_row. rewrite Hnext. reflexivity.
  - rewrite Hsteps'. unfold Pipeline.push_row. rewrite length_app. reflexivity.
Qed.

Lemma task_keeps_history_serialized_witness :
  exists lst',
    Pipeline.vector_history Scenario.env
      (snd (Pipeline.background_task Scenario.env
              (Demo.world_with (Some (js "down")))))
    = Rows lst' /\
    Pipeline.serialized lst' /\
    lst' = [] ++ [mkVectorRecord 1 (js "2025-01-01T00:00:00.000Z")
                    [Demo.half; Demo.minus_quarter]] /\
    map step lst' = [1%Z].
Proof.
  apply (task_keeps_history_serialized Scenario.env Scenario.env
           (Demo.world_with (Some (js "down"))) Demo.embedder
           [Demo.half; Demo.minus_quarter] []).
  - reflexivity.
  - reflexivity.
  - reflexivity.
  - constructor.
  - reflexivity.
  - reflexivity.
  - reflexivity.
Defined.

(** ** The projection, further *)

Module ProjectionMoreFacts.

(** With fewer projected rows than records, the callback throws. *)
Lemma map_rows_short (proj : list (list Number)) (vectors : list VectorRecord) :
  forall i, i <= length proj -> length proj < i + length vectors ->
  Pipeline.map_rows proj i vectors = Throw TypeError.
Proof.
  induction vectors as [|row rest IH]; intros i Hi Hlen; simpl in *; [lia|].
  destruct (nth_error proj i) as [p|] eqn:Hp; [|reflexivity].
  assert (i < length proj) by (apply nth_error_Some; congruence).
  rewrite (IH (S i)) by lia. reflexivity.
Qed.

Lemma triple_entry (row : list Number) (j : nat) (x : Number) :
  j < 3 -> nth_error row j = Some x ->
  nth_error (Pipeline.triple row) j = Some (if truthy_num x then x else zero).
Proof.
  intros Hj Hx. unfold Pipeline.triple.
  destruct j as [|[|[|j]]]; [| | |lia]; cbn [nth_error] in *;
    rewrite Hx; reflexivity.
Qed.

End ProjectionMoreFacts.

Import ProjectionMoreFacts.

(** X12.  Every coordinate PCA gives for a record is carried to its [xyz]
    unchanged when it is a non-zero number, the infinities included; a zero,
    a negative zero and a [NaN] come out as [0]. *)
Theorem projection_carries_coordinates (env : Env)
  (vectors : list VectorRecord) (out : list ProjectionRecord)
  (n : nat) (p : ProjectionRecord) :
  Pipeline.projectTo3D env vectors = Ok out ->
  nth_error out n = Some p ->
  exists pca proj row,
    PCA_new env (map vec vectors) = Ok pca /\
    predict pca (map vec vectors) (Nat.min 3 (length (getEigenvalues pca)))
    = Ok proj /\
    nth_error proj n = Some row /\
    forall j x, j < 3 -> nth_error row j = Some x ->
      nth_error (xyz p) j = Some (if truthy_num x then x else zero).
Proof.
  intros H Hn.
  destruct (projectTo3D_inv env vectors out H)
    as [[_ ->] | (pca & proj & Hnew & Hpred & Hrows)].
  - destruct n; discriminate.
  - destruct (map_rows_spec proj vectors 0 out Hrows) as [_ [_ Hx]].
    destruct (Hx n p Hn) as [row [Hrow ->]].
    exists pca, proj, row. repeat split; auto.
    intros j x Hj Hjx. apply triple_entry; assumption.
Qed.

(** An infinite first coordinate and a negative zero second coordinate. *)
Lemma projection_carries_coordinates_witness :
  Pipeline.projectTo3D Demo.env
    [mkVectorRecord 1 (js "t1") [S754_infinity true; S754_zero true; Demo.half]]
  = Ok [mkProjectionRecord 1 (js "t1") [S754_infinity true; zero; zero]] /\
  exists pca proj row,
    PCA_new Demo.env [[S754_infinity true; S754_zero true; Demo.half]] = Ok pca /\
    predict pca [[S754_infinity true; S754_zero true; Demo.half]]
      (Nat.min 3 (length (getEigenvalues pca))) = Ok proj /\
    nth_error proj 0 = Some row /\
    forall j x, j < 3 -> nth_error row j = Some x ->
      nth_error [S754_infinity true; zero; zero] j
      = Some (if truthy_num x then x else zero).
Proof.
  split; [reflexivity|].
  apply (projection_carries_coordinates Demo.env
           [mkVectorRecord 1 (js "t1")
              [S754_infinity true; S754_zero true; Demo.half]]
           [mkProjectionRecord 1 (js "t1") [S754_infinity true; zero; zero]]
           0 (mkProjectionRecord 1 (js "t1") [S754_infinity true; zero; zero]));
    reflexivity.
Defined.

(** X13.  On a non-empty input [projectTo3D] returns nothing partial: an
    error thrown by the PCA constructor or by [predict] is the error it
    throws, and a projection with fewer rows than there are records makes it
    throw a [TypeError]. *)
Theorem projectTo3D_throws (env : Env) (r : VectorRecord)
  (rest : list VectorRecord) :
  (forall e, PCA_new env (map vec (r :: rest)) = Throw e ->
     Pipeline.projectTo3D env (r :: rest) = Throw e) /\
  (forall pca e,
     PCA_new env (map vec (r :: rest)) = Ok pca ->
     predict pca (map vec (r :: rest))
       (Nat.min 3 (length (getEigenvalues pca))) = Throw e ->
     Pipeline.projectTo3D env (r :: rest) = Throw e) /\
  (forall pca proj,
     PCA_new env (map vec (r :: rest)) = Ok pca ->
     predict pca (map vec (r :: rest))
       (Nat.min 3 (length (getEigenvalues pca))) = Ok proj ->
     length proj < length (r :: rest) ->
     Pipeline.projectTo3D env (r :: rest) = Throw TypeError).
Proof.
  split; [|split].
  - intros e He. unfold Pipeline.projectTo3D. rewrite He. reflexivity.
  - intros pca e Hnew Hpred. unfold Pipeline.projectTo3D.
    rewrite Hnew, Hpred. reflexivity.
  - intros pca proj Hnew Hpred Hlen.
    rewrite (projectTo3D_run env (r :: rest) pca proj); auto; [|discriminate].
    apply map_rows_short; [lia | simpl; exact Hlen].
Qed.

Lemma projectTo3D_throws_witness :
  Pipeline.projectTo3D Scenario.env_no_pca [Scenario.first_row]
  = Throw (LibraryError 2).
Proof.
  apply (proj1 (projectTo3D_throws Scenario.env_no_pca Scenario.first_row [])).
  reflexivity.
Defined.

(** ** The reset, further *)

Module ResetFacts.
Import Vocabulary.

Lemma unlink_if_exists_removable (env : Env) (p : path) (w : World) :
  Pipeline.unlink_if_exists env p w =
  if removable env w p
  then (Ok tt, snd (Pipeline.unlink_if_exists env p w))
  else (Throw EIO, w).
Proof.
  unfold removable. rewrite unlink_if_exists_cases.
  destruct (fs w p); [destruct (unlink_fault env p)|]; reflexivity.
Qed.

Lemma unlink_if_exists_other (env : Env) (p q : path) (w : World) :
  q <> p -> fs (snd (Pipeline.unlink_if_exists env p w)) q = fs w q.
Proof.
  intros Hq. rewrite unlink_if_exists_cases.
  destruct (fs w p); [destruct (unlink_fault env p)|]; simpl; auto.
  apply set_file_other, Hq.
Qed.

Lemma removable_other (env : Env) (p q : path) (w : World) :
  q <> p ->
  removable env (snd (Pipeline.unlink_if_exists env p w)) q = removable env w q.
Proof.
  intros Hq. unfold removable. rewrite (unlink_if_exists_other env p q w Hq).
  reflexivity.
Qed.

(** [POST /reset] on an authorized request, as a decision table: the files
    are unlinked in the order sentence, vectors, projection, and the first
    unlink that fails ends the run. *)
Lemma reset_cases (env : Env) (req : Request) (w : World) :
  unauthorized env req = false ->
  express (Pipeline.post_reset env req) w =
  if removable env w DATA_FILE then
    let w1 := snd (Pipeline.unlink_if_exists env DATA_FILE w) in
    if removable env w VEC_FILE then
      let w2 := snd (Pipeline.unlink_if_exists env VEC_FILE w1) in
      if removable env w PROJ_FILE then
        (JsonOkMessage (js "All data cleared"),
         snd (Pipeline.unlink_if_exists env PROJ_FILE w2))
      else (Status500 EIO, w2)
    else (Status500 EIO, w1)
  else (Status500 EIO, w).
Proof.
  intros Hauth. unfold express, Pipeline.post_reset. rewrite Hauth.
  unfold try_catch, bind, ret. cbv zeta.
  rewrite (unlink_if_exists_removable env DATA_FILE w).
  destruct (removable env w DATA_FILE); [|reflexivity].
  set (w1 := snd (Pipeline.unlink_if_exists env DATA_FILE w)).
  rewrite (unlink_if_exists_removable env VEC_FILE w1).
  unfold w1 at 1. rewrite (removable_other env DATA_FILE VEC_FILE w)
    by discriminate.
  destruct (removable env w VEC_FILE); [|reflexivity].
  set (w2 := snd (Pipeline.unlink_if_exists env VEC_FILE w1)).
  rewrite (unlink_if_exists_removable env PROJ_FILE w2).
  unfold w2 at 1. rewrite (removable_other env VEC_FILE PROJ_FILE w1)
    by discriminate.
  unfold w1 at 1. rewrite (removable_other env DATA_FILE PROJ_FILE w)
    by discriminate.
  destruct (removable env w PROJ_FILE); reflexivity.
Qed.

(** What one removal does to the files, the promise and the console. *)
Lemma unlink_if_exists_state (env : Env) (p : path) (w : World) :
  removable env w p = true ->
  fs (snd (Pipeline.unlink_if_exists env p w)) p = None /\
  (forall q, q <> p -> fs (snd (Pipeline.unlink_if_exists env p w)) q = fs w q) /\
  embedderPromise (snd (Pipeline.unlink_if_exists env p w)) = embedderPromise w /\
  console (snd (Pipeline.unlink_if_exists env p w)) = console w.
Proof.
  unfold removable. rewrite unlink_if_exists_cases.
  destruct (fs w p) as [text|] eqn:Hp.
  - destruct (unlink_fault env p); [discriminate|]. intros _. simpl.
    split; [apply set_file_same|]. split; [|auto].
    intros q Hq. apply set_file_other, Hq.
  - intros _. simpl. auto.
Qed.

End ResetFacts.

Import ResetFacts.

(** X14.  An authorized reset answers [ok] exactly when each of the three
    files is absent or can be unlinked; it then leaves no file, and keeps
    the cached model and the console.  Otherwise it answers 500. *)
Theorem reset_succeeds_iff_removable (env : Env) (req : Request) (w : World) :
  unauthorized env req = false ->
  (fst (express (Pipeline.post_reset env req) w)
   = JsonOkMessage (js "All data cleared") <->
   removable env w DATA_FILE = true /\ removable env w VEC_FILE = true /\
   removable env w PROJ_FILE = true) /\
  (fst (express (Pipeline.post_reset env req) w)
   = JsonOkMessage (js "All data cleared") ->
   (forall p, fs (snd (express (Pipeline.post_reset env req) w)) p = None) /\
   embedderPromise (snd (express (Pipeline.post_reset env req) w))
   = embedderPromise w /\
   console (snd (express (Pipeline.post_reset env req) w)) = console w) /\
  (fst (express (Pipeline.post_reset env req) w)
   <> JsonOkMessage (js "All data cleared") ->
   fst (express (Pipeline.post_reset env req) w) = Status500 EIO).
Proof.
  intros Hauth. rewrite (reset_cases env req w Hauth). cbv zeta.
  destruct (removable env w DATA_FILE) eqn:Hd;
    [|simpl; repeat split; try discriminate; try tauto;
      intros [? _]; discriminate].
  destruct (removable env w VEC_FILE) eqn:Hv;
    [|simpl; repeat split; try discriminate; try tauto;
      intros [_ [? _]]; discriminate].
  destruct (removable env w PROJ_FILE) eqn:Hq;
    [|simpl; repeat split; try discriminate; try tauto;
      intros [_ [_ ?]]; discriminate].
  destruct (unlink_if_exists_state env DATA_FILE w Hd) as (D1 & K1 & P1 & C1).
  set (w1 := snd (Pipeline.unlink_if_exists env DATA_FILE w)) in *.
  assert (Hv1 : removable env w1 VEC_FILE = true).
  { unfold removable in *. rewrite (K1 VEC_FILE) by discriminate. exact Hv. }
  destruct (unlink_if_exists_state env VEC_FILE w1 Hv1) as (D2 & K2 & P2 & C2).
  set (w2 := snd (Pipeline.unlink_if_exists env VEC_FILE w1)) in *.
  assert (Hq2 : removable env w2 PROJ_FILE = true).
  { unfold removable in *. rewrite (K2 PROJ_FILE), (K1 PROJ_FILE) by discriminate.
    exact Hq. }
  destruct (unlink_if_exists_state env PROJ_FILE w2 Hq2) as (D3 & K3 & P3 & C3).
  simpl. split; [tauto|]. split; [|tauto]. intros _. split; [|split].
  - intros [| |].
    + rewrite (K3 DATA_FILE), (K2 DATA_FILE) by discriminate. exact D1.
    + rewrite (K3 VEC_FILE) by discriminate. exact D2.
    + exact D3.
  - congruence.
  - congruence.
Qed.

Lemma reset_succeeds_iff_removable_witness :
  fst (express (Pipeline.post_reset Demo.env Demo.reset) Scenario.populated)
  = JsonOkMessage (js "All data cleared").
Proof.
  apply (proj1 (reset_succeeds_iff_removable Demo.env Demo.reset
                  Scenario.populated eq_refl)).
  repeat split; reflexivity.
Defined.

(** X15.  The reset is not all-or-nothing: when the sentence file is removed
    and the vector file then cannot be unlinked, the answer is 500, the
    sentence is gone, and the vector history and the projection are still
    there; when only the projection file cannot be unlinked, the sentence
    and the vector history are gone and the projection is still there. *)
Theorem reset_stops_at_first_failure (env : Env) (req : Request) (w : World) :
  unauthorized env req = false ->
  (removable env w DATA_FILE = false ->
   express (Pipeline.post_reset env req) w = (Status500 EIO, w)) /\
  (removable env w DATA_FILE = true -> removable env w VEC_FILE = false ->
   fst (express (Pipeline.post_reset env req) w) = Status500 EIO /\
   fs (snd (express (Pipeline.post_reset env req) w)) DATA_FILE = None /\
   fs (snd (express (Pipeline.post_reset env req) w)) VEC_FILE = fs w VEC_FILE /\
   fs (snd (express (Pipeline.post_reset env req) w)) PROJ_FILE
   = fs w PROJ_FILE) /\
  (removable env w DATA_FILE = true -> removable env w VEC_FILE = true ->
   removable env w PROJ_FILE = false ->
   fst (express (Pipeline.post_reset env req) w) = Status500 EIO /\
   fs (snd (express (Pipeline.post_reset env req) w)) DATA_FILE = None /\
   fs (snd (express (Pipeline.post_reset env req) w)) VEC_FILE = None /\
   fs (snd (express (Pipeline.post_reset env req) w)) PROJ_FILE
   = fs w PROJ_FILE).
Proof.
  intros Hauth. rewrite (reset_cases env req w Hauth). cbv zeta.
  split; [intros ->; reflexivity|]. split.
  - intros Hd Hv. rewrite Hd, Hv. simpl.
    destruct (unlink_if_exists_state env DATA_FILE w Hd) as (D1 & K1 & _).
    split; [reflexivity|]. split; [exact D1|].
    split; apply K1; discriminate.
  - intros Hd Hv Hq. rewrite Hd, Hv, Hq. simpl.
    destruct (unlink_if_exists_state env DATA_FILE w Hd) as (D1 & K1 & _).
    set (w1 := snd (Pipeline.unlink_if_exists env DATA_FILE w)) in *.
    assert (Hv1 : removable env w1 VEC_FILE = true).
    { unfold removable in *. rewrite (K1 VEC_FILE) by discriminate. exact Hv. }
    destruct (unlink_if_exists_state env VEC_FILE w1 Hv1) as (D2 & K2 & _).
    split; [reflexivity|]. split; [|split; [exact D2|]].
    + rewrite (K2 DATA_FILE) by discriminate. exact D1.
    + rewrite (K2 PROJ_FILE), (K1 PROJ_FILE) by discriminate. reflexivity.
Qed.

(** The vector file is locked: the reset answers 500 and has already removed
    the sentence. *)
Lemma reset_stops_at_first_failure_witness :
  fst (express (Pipeline.post_reset Scenario.env_locked_vectors Demo.reset)
         Scenario.populated) = Status500 EIO /\
  fs (snd (express (Pipeline.post_reset Scenario.env_locked_vectors Demo.reset)
             Scenario.populated)) DATA_FILE = None /\
  fs (snd (express (Pipeline.post_reset Scenario.env_locked_vectors Demo.reset)
             Scenario.populated)) VEC_FILE = Some (js "[row1]") /\
  fs (snd (express (Pipeline.post_reset Scenario.env_locked_vectors Demo.reset)
             Scenario.populated)) PROJ_FILE = Some (js "[point1]").
Proof.
  apply (proj1 (proj2 (reset_stops_at_first_failure
                         Scenario.env_locked_vectors Demo.reset
                         Scenario.populated eq_refl))); reflexivity.
Defined.

(** ** [GET /regenerate] *)

Module RegenerateFacts.
Import Vocabulary.

Lemma history_seen_load (env : Env) (shape : jsstring -> Regenerate.other_value)
  (w : World) :
  Pipeline.loadJson env (Regenerate.JSON_parse env shape) VEC_FILE
    (Regenerate.Array []) w
  = (Ok (Regenerate.history_seen env shape w), w).
Proof.
  unfold Regenerate.history_seen. rewrite loadJson_cases. reflexivity.
Qed.

(** An array in the vector file is the array this route sees. *)
Lemma history_seen_rows (env : Env) (shape : jsstring -> Regenerate.other_value)
  (w : World) (rows : list VectorRecord) :
  Pipeline.vector_history env w = Rows rows ->
  Regenerate.history_seen env shape w = Regenerate.Array rows.
Proof.
  unfold Pipeline.vector_history, Regenerate.history_seen.
  rewrite !loadJson_cases. unfold Regenerate.JSON_parse.
  destruct (readFileSync env VEC_FILE w) as [[text|e] w0].
  - destruct (JSON_parse_vectors env text) as [[l|]|e]; congruence.
  - congruence.
Qed.

(** The route as a decision table. *)
Lemma regenerate_cases (env : Env) (shape : jsstring -> Regenerate.other_value)
  (w : World) :
  Regenerate.get_regenerate env shape w =
  match Regenerate.history_seen env shape w with
  | Regenerate.NonArray Regenerate.Null => (Ok (Regenerate.Failed TypeError), w)
  | Regenerate.NonArray (Regenerate.Other true) =>
      (Ok (Regenerate.Failed TypeError), w)
  | Regenerate.NonArray (Regenerate.Other false) =>
      (Ok (Regenerate.NoVectors Regenerate.no_vectors_msg), w)
  | Regenerate.Array [] =>
      (Ok (Regenerate.NoVectors Regenerate.no_vectors_msg), w)
  | Regenerate.Array (r :: rest) =>
      match Pipeline.projectTo3D env (r :: rest) with
      | Throw e => (Ok (Regenerate.Failed e), w)
      | Ok proj =>
          match write_fault env PROJ_FILE (fs w PROJ_FILE)
                  (JSON_stringify_points env proj) with
          | None =>
              (Ok (Regenerate.Regenerated (length proj)),
               with_fs w (set_file (fs w) PROJ_FILE
                            (Some (utf8_text false
                                     (JSON_stringify_points env proj)))))
          | Some left_behind =>
              (Ok (Regenerate.Failed EIO),
               with_fs w (set_file (fs w) PROJ_FILE left_behind))
          end
      end
  end.
Proof.
  unfold Regenerate.get_regenerate, try_catch. unfold bind at 1.
  rewrite history_seen_load.
  destruct (Regenerate.history_seen env shape w) as [[|r rest]|[|[|]]];
    try reflexivity.
  cbn [length Nat.eqb]. unfold bind at 1. unfold call at 1.
  destruct (Pipeline.projectTo3D env (r :: rest)) as [proj|e]; [|reflexivity].
  unfold bind, Pipeline.saveJson, writeFileSync, ret.
  destruct (write_fault env PROJ_FILE (fs w PROJ_FILE)
              (JSON_stringify_points env proj)); reflexivity.
Qed.

End RegenerateFacts.

Import RegenerateFacts.

(** X16.  With nothing to project, [GET /regenerate] says so and writes
    nothing: when the vector history reads as the empty array, which is the
    case of a missing file, of an unreadable file and of text that is not
    JSON, the answer is the error ["no vectors to project"] and the state is
    as it was; the projection file is not emptied. *)
Theorem regenerate_without_vectors (env : Env)
  (shape : jsstring -> Regenerate.other_value) (w : World) :
  (Pipeline.vector_history env w = Rows [] ->
   Regenerate.get_regenerate env shape w
   = (Ok (Regenerate.NoVectors Regenerate.no_vectors_msg), w)) /\
  (forall e, fst (readFileSync env VEC_FILE w) = Throw e ->
   Regenerate.get_regenerate env shape w
   = (Ok (Regenerate.NoVectors Regenerate.no_vectors_msg), w)) /\
  (forall text e, fst (readFileSync env VEC_FILE w) = Ok text ->
   JSON_parse_vectors env text = Throw e ->
   Regenerate.get_regenerate env shape w
   = (Ok (Regenerate.NoVectors Regenerate.no_vectors_msg), w)).
Proof.
  assert (Hempty : Pipeline.vector_history env w = Rows [] ->
                   Regenerate.get_regenerate env shape w
                   = (Ok (Regenerate.NoVectors Regenerate.no_vectors_msg), w)).
  { intros H. rewrite regenerate_cases, (history_seen_rows env shape w [] H).
    reflexivity. }
  split; [exact Hempty|]. split.
  - intros e He. apply Hempty. unfold Pipeline.vector_history.
    rewrite loadJson_cases.
    destruct (readFileSync env VEC_FILE w) as [[text|e'] w0];
      [discriminate | reflexivity].
  - intros text e He Hp. apply Hempty. unfold Pipeline.vector_history.
    rewrite loadJson_cases.
    destruct (readFileSync env VEC_FILE w) as [[text'|e'] w0]; [|reflexivity].
    simpl in He. injection He as ->. rewrite Hp. reflexivity.
Qed.

(** After a reset has removed the vector file, the projection file written
    by hand is left alone. *)
Lemma regenerate_without_vectors_witness :
  Regenerate.get_regenerate Demo.env Scenario.shape
    (mkWorld (set_file no_files PROJ_FILE (Some (js "[point1]"))) None [])
  = (Ok (Regenerate.NoVectors Regenerate.no_vectors_msg),
     mkWorld (set_file no_files PROJ_FILE (Some (js "[point1]"))) None []).
Proof.
  apply (proj1 (proj2 (regenerate_without_vectors Demo.env Scenario.shape
                         (mkWorld (set_file no_files PROJ_FILE
                                     (Some (js "[point1]"))) None [])))
           ENOENT).
  reflexivity.
Defined.

(** X17.  On a non-empty history whose projection and write go through,
    [GET /regenerate] reports as many points as the history has rows and
    overwrites the projection file with the projection of the whole
    history; the sentence, the vector history, the cached model and the
    console stay as they were. *)
Theorem regenerate_rewrites_projection (env : Env)
  (shape : jsstring -> Regenerate.other_value) (w : World)
  (rows : list VectorRecord) (proj : list ProjectionRecord) :
  Pipeline.vector_history env w = Rows rows ->
  rows <> [] ->
  Pipeline.projectTo3D env rows = Ok proj ->
  write_fault env PROJ_FILE (fs w PROJ_FILE) (JSON_stringify_points env proj)
  = None ->
  fst (Regenerate.get_regenerate env shape w)
  = Ok (Regenerate.Regenerated (length rows)) /\
  fs (snd (Regenerate.get_regenerate env shape w)) PROJ_FILE
  = Some (utf8_text false (JSON_stringify_points env proj)) /\
  fs (snd (Regenerate.get_regenerate env shape w)) DATA_FILE = fs w DATA_FILE /\
  fs (snd (Regenerate.get_regenerate env shape w)) VEC_FILE = fs w VEC_FILE /\
  embedderPromise (snd (Regenerate.get_regenerate env shape w))
  = embedderPromise w /\
  console (snd (Regenerate.get_regenerate env shape w)) = console w.
Proof.
  intros Hhist Hne Hproj Hw.
  rewrite regenerate_cases, (history_seen_rows env shape w rows Hhist).
  destruct rows as [|r rest]; [congruence|]. rewrite Hproj, Hw. simpl.
  repeat split; auto.
  f_equal. f_equal.
  destruct (projectTo3D_inv env _ proj Hproj)
    as [[Hnil _] | (pca & prows & _ & _ & Hrows)]; [discriminate|].
  destruct (map_rows_spec prows _ 0 proj Hrows) as [Hs _].
  rewrite <- (length_map pstep proj), Hs, length_map. reflexivity.
Qed.

Lemma regenerate_rewrites_projection_witness :
  fst (Regenerate.get_regenerate Scenario.env Scenario.shape Scenario.populated)
  = Ok (Regenerate.Regenerated 1) /\
  fs (snd (Regenerate.get_regenerate Scenario.env Scenario.shape
             Scenario.populated)) PROJ_FILE
  = Some (js "[point1]").
Proof.
  destruct (regenerate_rewrites_projection Scenario.env Scenario.shape
              Scenario.populated [Scenario.first_row] [Scenario.first_point])
    as (Hanswer & Hfile & _).
  - reflexivity.
  - discriminate.
  - reflexivity.
  - reflexivity.
  - split; [exact Hanswer | exact Hfile].
Defined.

(** X18.  [GET /regenerate] never writes the sentence file or the vector
    file and never touches the cached model or the console, whatever
    happens; when the projection throws, the answer is that error with
    status 500 and the whole state, the previous projection file included,
    is as it was. *)
Theorem regenerate_only_writes_projection (env : Env)
  (shape : jsstring -> Regenerate.other_value) (w : World) :
  (exists answer, fst (Regenerate.get_regenerate env shape w) = Ok answer) /\
  fs (snd (Regenerate.get_regenerate env shape w)) DATA_FILE = fs w DATA_FILE /\
  fs (snd (Regenerate.get_regenerate env shape w)) VEC_FILE = fs w VEC_FILE /\
  embedderPromise (snd (Regenerate.get_regenerate env shape w))
  = embedderPromise w /\
  console (snd (Regenerate.get_regenerate env shape w)) = console w /\
  (forall rows e,
     Pipeline.vector_history env w = Rows rows ->
     Pipeline.projectTo3D env rows = Throw e ->
     Regenerate.get_regenerate env shape w = (Ok (Regenerate.Failed e), w)).
Proof.
  rewrite regenerate_cases. split; [|split; [|split; [|split; [|split]]]].
  - destruct (Regenerate.history_seen env shape w) as [[|r rest]|[|[|]]];
      try (eexists; reflexivity).
    destruct (Pipeline.projectTo3D env (r :: rest)) as [proj|e];
      [|eexists; reflexivity].
    destruct (write_fault env PROJ_FILE (fs w PROJ_FILE) _);
      eexists; reflexivity.
  - destruct (Regenerate.history_seen env shape w) as [[|r rest]|[|[|]]];
      try reflexivity.
    destruct (Pipeline.projectTo3D env (r :: rest)) as [proj|e]; [|reflexivity].
    destruct (write_fault env PROJ_FILE (fs w PROJ_FILE) _); reflexivity.
  - destruct (Regenerate.history_seen env shape w) as [[|r rest]|[|[|]]];
      try reflexivity.
    destruct (Pipeline.projectTo3D env (r :: rest)) as [proj|e]; [|reflexivity].
    destruct (write_fault env PROJ_FILE (fs w PROJ_FILE) _); reflexivity.
  - destruct (Regenerate.history_seen env shape w) as [[|r rest]|[|[|]]];
      try reflexivity.
    destruct (Pipeline.projectTo3D env (r :: rest)) as [proj|e]; [|reflexivity].
    destruct (write_fault env PROJ_FILE (fs w PROJ_FILE) _); reflexivity.
  - destruct (Regenerate.history_seen env shape w) as [[|r rest]|[|[|]]];
      try reflexivity.
    destruct (Pipeline.projectTo3D env (r :: rest)) as [proj|e]; [|reflexivity].
    destruct (write_fault env PROJ_FILE (fs w PROJ_FILE) _); reflexivity.
  - intros rows e Hhist Hproj.
    rewrite (history_seen_rows env shape w rows Hhist).
    destruct rows as [|r rest]; [discriminate|]. rewrite Hproj. reflexivity.
Qed.

Lemma regenerate_only_writes_projection_witness :
  Regenerate.get_regenerate Scenario.env_no_pca Scenario.shape Scenario.populated
  = (Ok (Regenerate.Failed (LibraryError 2)), Scenario.populated).
Proof.
  apply (proj2 (proj2 (proj2 (proj2 (proj2
           (regenerate_only_writes_projection Scenario.env_no_pca
              Scenario.shape Scenario.populated)))))
           [Scenario.first_row] (LibraryError 2)); reflexivity.
Defined.

(** ** An update and what follows it *)

Module FollowFacts.
Import Vocabulary.

(** Writing the sentence file changes neither what the task finds in the
    vector file nor the embedder it gets. *)
Lemma sentence_write_keeps_rest (env : Env) (w : World) (c : option jsstring) :
  Pipeline.vector_history env (with_fs w (set_file (fs w) DATA_FILE c))
  = Pipeline.vector_history env w /\
  Pipeline.embedder_of env (with_fs w (set_file (fs w) DATA_FILE c))
  = Pipeline.embedder_of env w /\
  fs (with_fs w (set_file (fs w) DATA_FILE c)) VEC_FILE = fs w VEC_FILE.
Proof.
  split; [|split; reflexivity].
  unfold Pipeline.vector_history. rewrite !loadJson_cases.
  unfold readFileSync. cbn [fs with_fs].
  rewrite (set_file_other (fs w) DATA_FILE VEC_FILE) by discriminate.
  destruct (fs w VEC_FILE); [destruct (read_fault env VEC_FILE)|]; reflexivity.
Qed.

End FollowFacts.

Import FollowFacts.

(** X19.  Sending an accepted request again is rejected: once the ledger of
    [src/server.js] has accepted a candidate, the same candidate no longer
    has one word more than the current sentence, and the answer is the word
    count error; the state stays as the first request left it. *)
Theorem accepted_request_cannot_be_repeated (env : Env) (w w' : World)
  (req : Request) (text : jsstring) :
  read_fault env DATA_FILE = false ->
  express (Ledger.post_webhook_update env req) w = (SendText text, w') ->
  express (Ledger.post_webhook_update env req) w'
  = (Status400 one_word_msg, w').
Proof.
  intros Hread H.
  pose proof (accepted_read_core env env w w' req text Hread (or_introl H))
    as Hcur.
  destruct (ledger_accepted_inv env w w' req text H)
    as (Hauth & Htext & Hne & _ & _ & _).
  pose proof (utf8_same_class text false) as Hclass.
  rewrite (ledger_update_cases env w' req Hauth). cbv zeta.
  unfold incoming_of. rewrite <- Htext, Hcur.
  apply truthy_iff in Hne. rewrite Hne. simpl negb. cbv iota.
  assert (Hne' : truthy (utf8_text false text) = true).
  { apply same_class_length in Hclass.
    destruct text; [discriminate|]. destruct (utf8_text false (c :: text));
      [discriminate | reflexivity]. }
  rewrite Hne'. rewrite !count_word_count. unfold word_count.
  rewrite <- (same_class_words _ _ Hclass true).
  replace (words_after true text =? words_after true text + 1)%nat with false
    by (symmetry; apply Nat.eqb_neq; lia).
  reflexivity.
Qed.

Lemma accepted_request_cannot_be_repeated_witness :
  fst (express (Ledger.post_webhook_update Demo.env
                  (Demo.propose "the rabbit hole goes"))
         (snd (express (Ledger.post_webhook_update Demo.env
                          (Demo.propose "the rabbit hole goes"))
                 (Demo.world_with (Some (js "the rabbit hole"))))))
  = Status400 one_word_msg.
Proof.
  refine (f_equal fst
            (accepted_request_cannot_be_repeated Demo.env
               (Demo.world_with (Some (js "the rabbit hole"))) _
               (Demo.propose "the rabbit hole goes")
               (js "the rabbit hole goes") eq_refl eq_refl)).
Defined.

(** X20.  The row an accepted update of the pipeline server appends holds
    the embedding of the sentence as the task reads it back from the file:
    the accepted candidate as UTF-8 keeps it, or the empty string when the
    file cannot be read. *)
Theorem update_embeds_the_sentence_it_reads_back (env : Env) (w : World)
  (req : Request) (embed : Embedder) (v : list Number)
  (lst : list VectorRecord) :
  unauthorized env req = false ->
  trim (sentence_of req) <> [] ->
  write_fault env DATA_FILE (fs w DATA_FILE) (trim (sentence_of req)) = None ->
  Pipeline.embedder_of env w = Ok embed ->
  embed (if read_fault env DATA_FILE then []
         else utf8_text false (trim (sentence_of req))) = Ok v ->
  Pipeline.vector_history env w = Rows lst ->
  write_fault env VEC_FILE (fs w VEC_FILE)
    (JSON_stringify_vectors env (Pipeline.push_row lst (now env) v)) = None ->
  fst (express (Pipeline.post_webhook_update env req) w)
  = SendText (trim (sentence_of req)) /\
  fs (snd (express (Pipeline.post_webhook_update env req) w)) VEC_FILE
  = Some (utf8_text false
            (JSON_stringify_vectors env (Pipeline.push_row lst (now env) v))).
Proof.
  intros Hauth Hne Hw He Hv Hl Hwv.
  rewrite (pipeline_update_cases env w req Hauth). cbv zeta.
  unfold incoming_of. apply truthy_iff in Hne. rewrite Hne, Hw. simpl.
  split; [reflexivity|].
  set (w1 := with_fs w (set_file (fs w) DATA_FILE
                          (Some (utf8_text false (trim (sentence_of req)))))).
  destruct (sentence_write_keeps_rest env w
              (Some (utf8_text false (trim (sentence_of req)))))
    as (Hl1 & He1 & Hf1).
  fold w1 in Hl1, He1, Hf1.
  assert (Hcur : current_sentence env w1
                 = if read_fault env DATA_FILE then []
                   else utf8_text false (trim (sentence_of req))).
  { rewrite current_sentence_cases. unfold w1. cbn [fs with_fs].
    rewrite set_file_same.
    destruct (read_fault env DATA_FILE); [reflexivity | apply utf8_trimmed]. }
  rewrite background_task_state, task_body_cases. cbv zeta.
  rewrite He1, He, Hcur, Hv, Hl1, Hl, Hf1, Hwv.
  destruct (Pipeline.projectTo3D env _) as [proj|e]; [|reflexivity].
  destruct (write_fault env PROJ_FILE (fs w1 PROJ_FILE) _); reflexivity.
Qed.

Lemma update_embeds_the_sentence_it_reads_back_witness :
  fs (snd (express (Pipeline.post_webhook_update Scenario.env
                      (Demo.propose "down"))
             (Demo.world_with None))) VEC_FILE
  = Some (js "[row1]").
Proof.
  refine (proj2 (update_embeds_the_sentence_it_reads_back Scenario.env
                   (Demo.world_with None) (Demo.propose "down") Demo.embedder
                   [Demo.half; Demo.minus_quarter] []
                   eq_refl _ eq_refl eq_refl eq_refl eq_refl eq_refl)).
  vm_compute; discriminate.
Defined.
